(** * ElevenLabs microservice: adapter and HTTP facade

    A shallow embedding of [elevenlabs_client.py] (the provider adapter) and
    [main.py] (the FastAPI facade).  The provider SDK, the REST endpoint, the
    file system and the clock are outside the repository: they appear as the
    fields of a [World] record that every operation takes as an argument, and
    every outbound provider call is recorded in a log so that statements about
    "what the provider receives" can be made.  Python exceptions are explicit
    results; only subclasses of [Exception] are modelled. *)

From Stdlib Require Import ZArith NArith List String Ascii Floats Lia Bool.
From Stdlib.Strings Require Import Byte.
From stdpp Require Import base option gmap strings list pretty.

#[local] Set Warnings "-inexact-float,-register-all".

(** ** Python values and exceptions *)

(** An exception object: its class name and [str(e)]. *)
Record pyexn : Type := PyExn { exn_class : string; exn_msg : string }.

Inductive result (A : Type) : Type :=
| Ok (a : A)
| Raise (e : pyexn).
Arguments Ok {A} a.
Arguments Raise {A} e.

(** The values that cross the provider boundary (attributes of SDK objects,
    parsed JSON bodies). *)
Inductive pyval : Type :=
| PyNone
| PyBool (b : bool)
| PyInt (z : Z)
| PyFloat (f : float)
| PyStr (s : string)
| PyList (xs : list pyval)
| PyDict (kvs : list (string * pyval)).

(** Python [bytes]. *)
Abbreviation bytes := (list byte).

(** [x or d] on an [Optional[str]]: [None] and the empty string are falsy. *)
Definition str_or (x : option string) (d : string) : string :=
  match x with
  | Some s => if String.eqb s "" then d else s
  | None => d
  end.

(** [bool(x)] on an [Optional[str]]. *)
Definition str_truthy (x : option string) : bool :=
  match x with
  | Some s => negb (String.eqb s "")
  | None => false
  end.

Fixpoint assoc (k : string) (kvs : list (string * pyval)) : option pyval :=
  match kvs with
  | [] => None
  | (k', v) :: kvs' => if String.eqb k k' then Some v else assoc k kvs'
  end.

Definition py_type_name (v : pyval) : string :=
  match v with
  | PyNone => "NoneType"
  | PyBool _ => "bool"
  | PyInt _ => "int"
  | PyFloat _ => "float"
  | PyStr _ => "str"
  | PyList _ => "list"
  | PyDict _ => "dict"
  end.

(** [v.get(k, d)]: only a dict has the method. *)
Definition py_get (v : pyval) (k : string) (d : pyval) : result pyval :=
  match v with
  | PyDict kvs => Ok (default d (assoc k kvs))
  | _ => Raise (PyExn "AttributeError"
                  ("'" +:+ py_type_name v +:+ "' object has no attribute 'get'"))
  end.

(** [v[:100]]: strings and lists can be sliced, the other values cannot
    (which exception a dict raises depends on the interpreter; every caller
    catches it). *)
Definition py_slice_100 (v : pyval) : result pyval :=
  match v with
  | PyStr s => Ok (PyStr (String.substring 0 100 s))
  | PyList xs => Ok (PyList (firstn 100 xs))
  | _ => Raise (PyExn "TypeError"
                  ("'" +:+ py_type_name v +:+ "' object is not subscriptable"))
  end.

(** ** Python's [base64] module

    [base64.b64encode] and the lenient [base64.b64decode] ([validate=False]),
    as the facade calls them.  The encoder follows RFC 4648 section 4; the
    decoder follows the loop of [binascii.a2b_base64]: characters outside the
    alphabet are skipped, a pad that completes a quad ends the input, and a
    dangling quad is an error. *)
Module Base64.

Definition table_b2a_base64 : string :=
  "ABCDEFGHIJKLMNOPQRSTUVWXYZabcdefghijklmnopqrstuvwxyz0123456789+/".

Definition BASE64_PAD : ascii := "="%char.

Definition b2a (n : N) : ascii :=
  default BASE64_PAD (String.get (N.to_nat n) table_b2a_base64).

Definition table_a2b_base64 (c : ascii) : option N :=
  let n := N_of_ascii c in
  (if (65 <=? n) && (n <=? 90) then Some (n - 65)
   else if (97 <=? n) && (n <=? 122) then Some (n - 71)
   else if (48 <=? n) && (n <=? 57) then Some (n + 4)
   else if n =? 43 then Some 62
   else if n =? 47 then Some 63
   else None)%N.

(** Store into an [unsigned char]. *)
Definition u8 (n : N) : byte :=
  default x00 (Byte.of_N (N.land n 255)).

Fixpoint b2a_base64 (bs : bytes) : string :=
  match bs with
  | [] => ""
  | [a] =>
      let a := Byte.to_N a in
      String (b2a (N.shiftr a 2))
        (String (b2a (N.shiftl (N.land a 3) 4))
           (String BASE64_PAD (String BASE64_PAD "")))
  | [a; b] =>
      let a := Byte.to_N a in
      let b := Byte.to_N b in
      String (b2a (N.shiftr a 2))
        (String (b2a (N.lor (N.shiftl (N.land a 3) 4) (N.shiftr b 4)))
           (String (b2a (N.shiftl (N.land b 15) 2))
              (String BASE64_PAD "")))
  | a :: b :: c :: rest =>
      let a := Byte.to_N a in
      let b := Byte.to_N b in
      let c := Byte.to_N c in
      String (b2a (N.shiftr a 2))
        (String (b2a (N.lor (N.shiftl (N.land a 3) 4) (N.shiftr b 4)))
           (String (b2a (N.lor (N.shiftl (N.land b 15) 2) (N.shiftr c 6)))
              (String (b2a (N.land c 63)) (b2a_base64 rest))))
  end.

(** [base64.b64encode(s).decode()] *)
Definition b64encode (s : bytes) : string := b2a_base64 s.

(** The decoding loop; [out] is the output buffer, most recent byte first. *)
Fixpoint a2b_base64_loop (s : string) (quad_pos leftchar pads : N)
    (out : bytes) : result bytes :=
  match s with
  | EmptyString =>
      if quad_pos =? 0 then Ok (rev out)
      else if quad_pos =? 1 then
        Raise (PyExn "binascii.Error"
                 ("Invalid base64-encoded string: number of data characters ("
                  +:+ pretty (N.of_nat (length out) / 3 * 4 + 1)
                  +:+ ") cannot be 1 more than a multiple of 4"))
      else Raise (PyExn "binascii.Error" "Incorrect padding")
  | String this_ch s' =>
      if Ascii.eqb this_ch BASE64_PAD then
        if (2 <=? quad_pos) && (4 <=? quad_pos + (pads + 1)) then
          Ok (rev out)
        else
          a2b_base64_loop s' quad_pos leftchar
            (if 2 <=? quad_pos then pads + 1 else pads) out
      else
        match table_a2b_base64 this_ch with
        | None => a2b_base64_loop s' quad_pos leftchar pads out
        | Some this_ch =>
            if quad_pos =? 0 then
              a2b_base64_loop s' 1 this_ch 0 out
            else if quad_pos =? 1 then
              a2b_base64_loop s' 2 (N.land this_ch 15) 0
                (u8 (N.lor (N.shiftl leftchar 2) (N.shiftr this_ch 4)) :: out)
            else if quad_pos =? 2 then
              a2b_base64_loop s' 3 (N.land this_ch 3) 0
                (u8 (N.lor (N.shiftl leftchar 4) (N.shiftr this_ch 2)) :: out)
            else
              a2b_base64_loop s' 0 0 0
                (u8 (N.lor (N.shiftl leftchar 6) this_ch) :: out)
        end
  end%N.

Definition a2b_base64 (s : string) : result bytes :=
  a2b_base64_loop s 0 0 0 [].

Fixpoint is_ascii (s : string) : bool :=
  match s with
  | EmptyString => true
  | String c s' => (N_of_ascii c <? 128)%N && is_ascii s'
  end.

(** [base64.b64decode(s)] on a [str] argument. *)
Definition b64decode (s : string) : result bytes :=
  if is_ascii s then a2b_base64 s
  else Raise (PyExn "ValueError"
                "string argument should contain only ASCII characters").

End Base64.

(** ** The world outside the repository *)

(** [elevenlabs.VoiceSettings] and [elevenlabs.Voice], as the adapter builds
    them. *)
Record VoiceSettings : Type := {
  stability : pyval;
  similarity_boost : pyval;
  style : pyval;
  use_speaker_boost : pyval
}.

Record Voice : Type := { voice_id : string; settings : VoiceSettings }.

(** The SDK client object, built from the key. *)
Record sdk_client : Type := { sdk_api_key : string }.

(** What [client.speech_to_text.convert] returns: an object that may or may
    not have the attributes [text] and [confidence], and its [str()]. *)
Record sdk_transcript : Type := {
  st_text : option pyval;
  st_confidence : option pyval;
  st_str : string
}.

(** One entry of [client.voices.get_all().voices]. *)
Record sdk_voice : Type := {
  sv_voice_id : pyval;
  sv_name : pyval;
  sv_category : pyval;
  sv_description : pyval;
  sv_preview_url : pyval;
  sv_available_for_tiers : pyval;
  sv_settings : option (float * float)
}.

(** An [httpx] multipart POST and its response. *)
Module httpx.

Record Request : Type := {
  url : string;
  files : gmap string (string * bytes * string);
  data : option (gmap string (option string));
  headers : gmap string string
}.

Record Response : Type := {
  status_code : Z;
  json : result pyval;
  text : string
}.

End httpx.

Record World : Type := {
  (** [os.getenv] *)
  getenv : string -> option string;
  (** [ElevenLabsSync(api_key=...)] *)
  sdk_new : string -> result sdk_client;
  (** [client.user.get()] followed by [.subscription.tier] *)
  sdk_user_get_tier : sdk_client -> result string;
  (** [VoiceSettings(stability=..., similarity_boost=..., style=...,
      use_speaker_boost=...)]: the SDK's constructor validates its arguments,
      and may coerce or reject them *)
  sdk_voice_settings : pyval -> pyval -> pyval -> pyval -> result VoiceSettings;
  (** [client.generate(text, voice, model)], iterated to the end *)
  sdk_generate :
    sdk_client -> string -> Voice -> option string -> result (list bytes);
  (** [hasattr(client, 'speech_to_text')] *)
  sdk_has_speech_to_text : sdk_client -> bool;
  (** [client.speech_to_text.convert(audio, model_id)] *)
  sdk_speech_to_text_convert :
    sdk_client -> bytes -> option string -> result sdk_transcript;
  (** [client.voices.get_all().voices] *)
  sdk_voices_get_all : sdk_client -> result (list sdk_voice);
  (** [tempfile.NamedTemporaryFile] and the write of the audio; the path *)
  fs_write_temp : bytes -> result string;
  (** the two [open(temp_path, 'rb')] and the final [unlink] *)
  fs_open_sdk : string -> result unit;
  fs_open_rest : string -> result unit;
  fs_unlink : string -> result unit;
  (** [httpx.Client(timeout=60.0).post] *)
  http_post : httpx.Request -> result httpx.Response;
  (** pydantic's coercion of a value into a [str] and a [float] field *)
  validate_str : pyval -> result string;
  validate_float : pyval -> result float
}.

(** ** Effects: a log of provider calls and Python exceptions *)

Inductive event : Type :=
| Generate (txt : string) (voice : Voice) (model : option string)
| SttConvert (audio : bytes) (model_id : option string)
| Post (req : httpx.Request)
| VoicesGetAll.

Definition M (A : Type) : Type := (list event * result A)%type.

#[global] Instance M_ret : MRet M := fun A a => ([], Ok a).

#[global] Instance M_bind : MBind M := fun A B f m =>
  match m with
  | (l, Ok a) => let '(l', r) := f a in (l ++ l', r)
  | (l, Raise e) => (l, Raise e)
  end.

Definition raise {A : Type} (cls msg : string) : M A :=
  ([], Raise (PyExn cls msg)).

(** A call that leaves the process: logged, then its outcome. *)
Definition call {A : Type} (ev : event) (r : result A) : M A := ([ev], r).

(** A local operation that may raise. *)
Definition lift {A : Type} (r : result A) : M A := ([], r).

(** [try: m except Exception as e: h e] *)
Definition try_except {A : Type} (m : M A) (h : pyexn -> M A) : M A :=
  match m with
  | (l, Raise e) => let '(l', r) := h e in (l ++ l', r)
  | (l, Ok a) => (l, Ok a)
  end.

(** [try: m finally: c]: an exception of [c] replaces the outcome of [m]. *)
Definition try_finally {A : Type} (m : M A) (c : M unit) : M A :=
  let '(l, r) := m in
  match c with
  | (l', Ok _) => (l ++ l', r)
  | (l', Raise e) => (l ++ l', Raise e)
  end.

Definition log_of {A : Type} (m : M A) : list event := fst m.
Definition outcome {A : Type} (m : M A) : result A := snd m.

(** ** The provider adapter ([elevenlabs_client.py]) *)
Module elevenlabs_client.

Record ElevenLabsClient : Type := {
  api_key : string;
  client : option sdk_client;
  _connected : bool
}.

Definition __init__ (api_key : string) : ElevenLabsClient :=
  {| api_key := api_key; client := None; _connected := false |}.

(** [initialize]: the object after the call, and whether it raised. *)
Definition initialize (w : World) (self : ElevenLabsClient)
    : ElevenLabsClient * result unit :=
  match sdk_new w (api_key self) with
  | Ok c =>
      match sdk_user_get_tier w c with
      | Ok _ =>
          ({| api_key := api_key self; client := Some c;
              _connected := true |}, Ok ())
      | Raise e =>
          ({| api_key := api_key self; client := Some c;
              _connected := false |}, Raise e)
      end
  | Raise e =>
      ({| api_key := api_key self; client := client self;
          _connected := false |}, Raise e)
  end.

Definition is_connected (self : ElevenLabsClient) : bool :=
  _connected self && bool_decide (client self ≠ None).

(** [d.get(k, dflt)] on a [Dict[str, float]]. *)
Definition dict_get (d : gmap string float) (k : string) (dflt : pyval)
    : pyval :=
  default dflt (PyFloat <$> d !! k).

Definition make_settings (w : World)
    (voice_settings : option (gmap string float)) : result VoiceSettings :=
  match voice_settings with
  | Some d =>
      if bool_decide (d ≠ ∅) then
        sdk_voice_settings w
          (dict_get d "stability" (PyFloat 0.5))
          (dict_get d "similarity_boost" (PyFloat 0.75))
          (dict_get d "style" (PyFloat 0.0))
          (dict_get d "use_speaker_boost" (PyBool true))
      else
        sdk_voice_settings w
          (PyFloat 0.5) (PyFloat 0.75) (PyFloat 0.0) (PyBool true)
  | None =>
      sdk_voice_settings w
        (PyFloat 0.5) (PyFloat 0.75) (PyFloat 0.0) (PyBool true)
  end.

Definition _generate_speech (w : World) (self : ElevenLabsClient)
    (text voice_id : string) (model_id : option string)
    (voice_settings : option (gmap string float)) : M bytes :=
  settings ← lift (make_settings w voice_settings);
  let voice := {| voice_id := voice_id; settings := settings |} in
  match client self with
  | Some c =>
      audio_generator ←
        call (Generate text voice model_id)
             (sdk_generate w c text voice model_id);
      mret (concat audio_generator)
  | None =>
      raise "AttributeError" "'NoneType' object has no attribute 'generate'"
  end.

Definition text_to_speech (w : World) (self : ElevenLabsClient)
    (text voice_id : string) (model_id : option string)
    (voice_settings : option (gmap string float)) : M bytes :=
  if negb (is_connected self) then
    raise "RuntimeError" "Client not connected"
  else
    try_except
      (_generate_speech w self text voice_id model_id voice_settings)
      (fun e => lift (Raise e)).

(** The dict that [speech_to_text] returns. *)
Record transcript : Type := {
  text : pyval;
  confidence : pyval;
  language : string
}.

(** ['scribe_v1' if (model_id or 'whisper-1') == 'whisper-1' else model_id] *)
Definition elevenlabs_model (model_id : option string) : option string :=
  if String.eqb (str_or model_id "whisper-1") "whisper-1"
  then Some "scribe_v1" else model_id.

Definition fallback_text : string :=
  "STT API temporarily unavailable - this is a fallback response to test the integration pipeline.".

Definition stt_url : string := "https://api.elevenlabs.io/v1/speech-to-text".

(** The SDK attempt: [Some] when it returned from [_transcribe_audio],
    [None] when control falls through to the direct API call. *)
Definition sdk_attempt (w : World) (self : ElevenLabsClient)
    (temp_path : string) (audio_data : bytes) (model_id language : option string)
    : M (option transcript) :=
  try_except
    (_ ← lift (fs_open_sdk w temp_path);
     match client self with
     | Some c =>
         if sdk_has_speech_to_text w c then
           result ←
             call (SttConvert audio_data (elevenlabs_model model_id))
                  (sdk_speech_to_text_convert w c audio_data
                     (elevenlabs_model model_id));
           mret (Some {| text := default (PyStr (st_str result)) (st_text result);
                         confidence := default (PyFloat 0.95) (st_confidence result);
                         language := str_or language "en" |})
         else mret None
     | None => mret None
     end)
    (fun sdk_error => mret None).

(** The dict built from a 200 response. *)
Definition from_response (response : httpx.Response) (language : option string)
    : M transcript :=
  result ← lift (httpx.json response);
  t ← lift (py_get result "text" (PyStr ""));
  c ← lift (py_get result "confidence" (PyFloat 0.95));
  mret {| text := t; confidence := c; language := str_or language "en" |}.

Definition first_request (self : ElevenLabsClient) (audio_data : bytes)
    : httpx.Request :=
  {| httpx.url := stt_url;
     httpx.files := {[ "file" := ("audio.wav", audio_data, "audio/wav") ]};
     httpx.data := None;
     httpx.headers := {[ "xi-api-key" := api_key self ]} |}.

Definition second_request (self : ElevenLabsClient) (audio_data : bytes)
    (model_id language : option string) : httpx.Request :=
  let data : gmap string (option string) :=
    {[ "model_id" := elevenlabs_model model_id ]} in
  let data :=
    if str_truthy language then <[ "language" := language ]> data else data in
  {| httpx.url := stt_url;
     httpx.files := {[ "file" := ("audio.wav", audio_data, "audio/wav") ]};
     httpx.data := Some data;
     httpx.headers := {[ "xi-api-key" := api_key self ]} |}.

Definition direct_api (w : World) (self : ElevenLabsClient)
    (temp_path : string) (audio_data : bytes) (model_id language : option string)
    : M transcript :=
  _ ← lift (fs_open_rest w temp_path);
  let req := first_request self audio_data in
  response ← call (Post req) (http_post w req);
  if (httpx.status_code response =? 200)%Z then
    from_response response language
  else
    let req := second_request self audio_data model_id language in
    response ← call (Post req) (http_post w req);
    if (httpx.status_code response =? 200)%Z then
      from_response response language
    else
      raise "Exception"
        ("STT API error: " +:+ pretty (httpx.status_code response)
         +:+ " - " +:+ httpx.text response).

Definition _transcribe_audio (w : World) (self : ElevenLabsClient)
    (audio_data : bytes) (model_id language : option string) : M transcript :=
  temp_path ← lift (fs_write_temp w audio_data);
  try_finally
    (r ← sdk_attempt w self temp_path audio_data model_id language;
     match r with
     | Some result => mret result
     | None => direct_api w self temp_path audio_data model_id language
     end)
    (lift (fs_unlink w temp_path)).

Definition fallback (language : option string) : transcript :=
  {| text := PyStr fallback_text;
     confidence := PyFloat 0.80;
     language := str_or language "en" |}.

Definition speech_to_text (w : World) (self : ElevenLabsClient)
    (audio_data : bytes) (model_id language : option string) : M transcript :=
  if negb (is_connected self) then
    raise "RuntimeError" "Client not connected"
  else
    try_except
      (result ← _transcribe_audio w self audio_data model_id language;
       _ ← lift (py_slice_100 (text result));
       mret result)
      (fun e => mret (fallback language)).

Definition get_voices (w : World) (self : ElevenLabsClient)
    : M (list sdk_voice) :=
  if negb (is_connected self) then
    raise "RuntimeError" "Client not connected"
  else
    try_except
      match client self with
      | Some c => call VoicesGetAll (sdk_voices_get_all w c)
      | None =>
          raise "AttributeError" "'NoneType' object has no attribute 'voices'"
      end
      (fun e => lift (Raise e)).

Definition close (self : ElevenLabsClient) : ElevenLabsClient :=
  {| api_key := api_key self; client := None; _connected := false |}.

End elevenlabs_client.

(** ** The HTTP facade ([main.py]) *)
Module main.

Import elevenlabs_client.

Module TTSRequest.
Record t : Type := {
  text : string;
  voice_id : option string;
  model_id : option string;
  voice_settings : option (gmap string float)
}.
End TTSRequest.

Module STTRequest.
Record t : Type := {
  audio_data : string;
  model_id : option string;
  language : option string
}.
End STTRequest.

Module TTSResponse.
Record t : Type := {
  audio_data : string;
  voice_id : string;
  model_id : string;
  duration : float;
  size : Z;
  generated_at : string
}.
End TTSResponse.

Module STTResponse.
Record t : Type := {
  text : string;
  confidence : float;
  language : string;
  processing_time : float;
  model_id : string
}.
End STTResponse.

Module HealthResponse.
Record t : Type := {
  status : string;
  service : string;
  version : string;
  uptime : float;
  elevenlabs_connected : bool
}.
End HealthResponse.

Module VoiceInfo.
Record t : Type := {
  voice_id : string;
  name : string;
  category : string;
  description : option string;
  preview_url : option string
}.
End VoiceInfo.

(** What an endpoint hands to the framework: a body, sent with status 200,
    or an [HTTPException]. *)
Inductive http_result (A : Type) : Type :=
| Response (body : A)
| HTTPException (status_code : Z) (detail : string).
Arguments Response {A} body.
Arguments HTTPException {A} status_code detail.

Definition status_of {A : Type} (r : http_result A) : Z :=
  match r with
  | Response _ => 200
  | HTTPException status_code _ => status_code
  end.

(** [try: body except Exception as e: raise HTTPException(500, str(e))] *)
Definition guard_500 {A : Type} (body : M A) : list event * http_result A :=
  match body with
  | (l, Ok a) => (l, Response a)
  | (l, Raise e) => (l, HTTPException 500 (exn_msg e))
  end.

Definition not_initialized {A : Type} : list event * http_result A :=
  ([], HTTPException 503 "ElevenLabs client not initialized").

(** The start-up half of [lifespan]: the global after it, and whether it
    raised. *)
Definition lifespan (w : World) (elevenlabs_client : option ElevenLabsClient)
    : option ElevenLabsClient * result unit :=
  let api_key := getenv w "ELEVENLABS_API_KEY" in
  if negb (str_truthy api_key)
     || bool_decide (api_key = Some "your-elevenlabs-api-key-here")
  then
    (elevenlabs_client,
     Raise (PyExn "RuntimeError" "ElevenLabs API key is required"))
  else
    let '(c, r) := initialize w (__init__ (default "" api_key)) in
    (Some c, r).

Definition health_check (elevenlabs_client : option ElevenLabsClient)
    (start_time now : float) : http_result HealthResponse.t :=
  Response
    {| HealthResponse.status := "healthy";
       HealthResponse.service := "elevenlabs-microservice";
       HealthResponse.version := "1.0.0";
       HealthResponse.uptime := PrimFloat.sub now start_time;
       HealthResponse.elevenlabs_connected :=
         match elevenlabs_client with
         | Some c => is_connected c
         | None => false
         end |}.

(** pydantic on a required [str] field given an [Optional[str]]. *)
Definition required_str (field : string) (x : option string) : result string :=
  match x with
  | Some s => Ok s
  | None =>
      Raise (PyExn "ValidationError"
               ("1 validation error: " +:+ field
                +:+ " Input should be a valid string"))
  end.

(** [t_before], [t_after]: the two readings of [time.time()];
    [stamp]: [time.strftime]. *)
Definition text_to_speech (w : World)
    (elevenlabs_client : option ElevenLabsClient) (request : TTSRequest.t)
    (t_before t_after : float) (stamp : string)
    : list event * http_result TTSResponse.t :=
  match elevenlabs_client with
  | None => not_initialized
  | Some c =>
      guard_500
        (let voice_id :=
           str_or (TTSRequest.voice_id request)
             (default "21m00Tcm4TlvDq8ikWAM" (getenv w "ELEVENLABS_VOICE_ID")) in
         audio_data ←
           elevenlabs_client.text_to_speech w c (TTSRequest.text request)
             voice_id (TTSRequest.model_id request)
             (TTSRequest.voice_settings request);
         let processing_time := PrimFloat.sub t_after t_before in
         let audio_b64 := Base64.b64encode audio_data in
         model_id ← lift (required_str "model_id" (TTSRequest.model_id request));
         mret {| TTSResponse.audio_data := audio_b64;
                 TTSResponse.voice_id := voice_id;
                 TTSResponse.model_id := model_id;
                 TTSResponse.duration := processing_time;
                 TTSResponse.size := Z.of_nat (length audio_data);
                 TTSResponse.generated_at := stamp |})
  end.

Definition speech_to_text (w : World)
    (elevenlabs_client : option ElevenLabsClient) (request : STTRequest.t)
    (t_before t_after : float) : list event * http_result STTResponse.t :=
  match elevenlabs_client with
  | None => not_initialized
  | Some c =>
      guard_500
        (audio_data ← lift (Base64.b64decode (STTRequest.audio_data request));
         result ←
           elevenlabs_client.speech_to_text w c audio_data
             (STTRequest.model_id request) (STTRequest.language request);
         let processing_time := PrimFloat.sub t_after t_before in
         text ← lift (validate_str w (elevenlabs_client.text result));
         confidence ← lift (validate_float w (elevenlabs_client.confidence result));
         mret {| STTResponse.text := text;
                 STTResponse.confidence := confidence;
                 STTResponse.language := elevenlabs_client.language result;
                 STTResponse.processing_time := processing_time;
                 STTResponse.model_id :=
                   str_or (STTRequest.model_id request) "whisper-1" |})
  end.

(** pydantic on an [Optional[str]] field. *)
Definition optional_str (w : World) (v : pyval) : result (option string) :=
  match v with
  | PyNone => Ok None
  | _ => match validate_str w v with
         | Ok s => Ok (Some s)
         | Raise e => Raise e
         end
  end.

Definition voice_info (w : World) (voice : sdk_voice) : M VoiceInfo.t :=
  voice_id ← lift (validate_str w (sv_voice_id voice));
  name ← lift (validate_str w (sv_name voice));
  category ← lift (validate_str w (sv_category voice));
  description ← lift (optional_str w (sv_description voice));
  preview_url ← lift (optional_str w (sv_preview_url voice));
  mret {| VoiceInfo.voice_id := voice_id;
          VoiceInfo.name := name;
          VoiceInfo.category := category;
          VoiceInfo.description := description;
          VoiceInfo.preview_url := preview_url |}.

Definition get_voices (w : World)
    (elevenlabs_client : option ElevenLabsClient)
    : list event * http_result (list VoiceInfo.t) :=
  match elevenlabs_client with
  | None => not_initialized
  | Some c =>
      guard_500
        (voices ← elevenlabs_client.get_voices w c;
         mapM (voice_info w) voices)
  end.

Record model_entry : Type := {
  id : string;
  name : string;
  description : string
}.

Record model_catalog : Type := {
  tts_models : list model_entry;
  stt_models : list model_entry
}.

Definition get_models : http_result model_catalog :=
  Response
    {| tts_models :=
         [ {| id := "eleven_monolingual_v1";
              name := "Eleven Monolingual v1";
              description := "High quality English model" |};
           {| id := "eleven_multilingual_v1";
              name := "Eleven Multilingual v1";
              description := "Multilingual model supporting various languages" |};
           {| id := "eleven_multilingual_v2";
              name := "Eleven Multilingual v2";
              description := "Latest multilingual model with improved quality" |} ];
       stt_models :=
         [ {| id := "whisper-1";
              name := "Whisper v1";
              description := "OpenAI Whisper model for speech recognition" |} ] |}.

(** [/stt-file]: [file] is what [await file.read()] returns; [model_id] is a
    query parameter of type [str]. *)
Definition speech_to_text_file (w : World)
    (elevenlabs_client : option ElevenLabsClient) (file : bytes)
    (model_id : string) (language : option string)
    (t_before t_after : float) : list event * http_result STTResponse.t :=
  match elevenlabs_client with
  | None => not_initialized
  | Some c =>
      guard_500
        (let audio_data := file in
         result ←
           elevenlabs_client.speech_to_text w c audio_data
             (Some model_id) language;
         let processing_time := PrimFloat.sub t_after t_before in
         text ← lift (validate_str w (elevenlabs_client.text result));
         confidence ← lift (validate_float w (elevenlabs_client.confidence result));
         mret {| STTResponse.text := text;
                 STTResponse.confidence := confidence;
                 STTResponse.language := elevenlabs_client.language result;
                 STTResponse.processing_time := processing_time;
                 STTResponse.model_id := model_id |})
  end.

(** The shut-down half of [lifespan]: the adapter object is closed in place,
    the global keeps pointing to it. *)
Definition lifespan_shutdown (elevenlabs_client : option ElevenLabsClient)
    : option ElevenLabsClient :=
  match elevenlabs_client with
  | Some c => Some (close c)
  | None => None
  end.

End main.

(** ** Vocabulary of the statements about base64 *)
Module b64.

Import Base64.
#[local] Open Scope N_scope.

(** Every byte, in order. *)
Definition all_bytes : bytes :=
  map (fun n => u8 (N.of_nat n)) (seq 0 256).

(** The character of a sextet is not the pad and decodes to the sextet. *)
Definition sextet_ok (n : N) : bool :=
  negb (Ascii.eqb (b2a n) BASE64_PAD)
  && match table_a2b_base64 (b2a n) with
     | Some m => m =? n
     | None => false
     end.

(** The four sextets that the encoder cuts out of three bytes. *)
Definition sextet0 (a : byte) : N := N.shiftr (Byte.to_N a) 2.
Definition sextet1 (a b : byte) : N :=
  N.lor (N.shiftl (N.land (Byte.to_N a) 3) 4) (N.shiftr (Byte.to_N b) 4).
Definition sextet2 (b c : byte) : N :=
  N.lor (N.shiftl (N.land (Byte.to_N b) 15) 2) (N.shiftr (Byte.to_N c) 6).
Definition sextet3 (c : byte) : N := N.land (Byte.to_N c) 63.

(** What the decoder rebuilds from the sextets, checked byte by byte: each
    check ranges over at most two bytes, so that it can be run on all of
    them. *)
Definition check_first (a b : byte) : bool :=
  sextet_ok (sextet0 a) && sextet_ok (sextet1 a b)
  && Byte.eqb (u8 (N.lor (N.shiftl (sextet0 a) 2) (N.shiftr (sextet1 a b) 4))) a
  && (N.land (sextet1 a b) 15 =? N.shiftr (Byte.to_N b) 4).

Definition check_second (b c : byte) : bool :=
  sextet_ok (sextet2 b c)
  && Byte.eqb (u8 (N.lor (N.shiftl (N.shiftr (Byte.to_N b) 4) 4)
                         (N.shiftr (sextet2 b c) 2))) b
  && (N.land (sextet2 b c) 3 =? N.shiftr (Byte.to_N c) 6).

Definition check_third (c : byte) : bool :=
  sextet_ok (sextet3 c)
  && Byte.eqb (u8 (N.lor (N.shiftl (N.shiftr (Byte.to_N c) 6) 6) (sextet3 c))) c.

End b64.

(** ** Vocabulary of the statements about speech-to-text *)
Module stt.

Import elevenlabs_client.

Section Call.

Variables (w : World) (self : ElevenLabsClient) (audio_data : bytes)
          (model_id language : option string).

(** [r] is built from what the SDK's [convert] returned. *)
Definition from_sdk (r : transcript) : Prop :=
  exists c result,
    client self = Some c /\
    sdk_has_speech_to_text w c = true /\
    sdk_speech_to_text_convert w c audio_data (elevenlabs_model model_id)
      = Ok result /\
    text r = default (PyStr (st_str result)) (st_text result) /\
    confidence r = default (PyFloat 0.95) (st_confidence result).

(** [r] is built from the JSON body of a 200 response to one of the two
    direct uploads. *)
Definition from_rest (r : transcript) : Prop :=
  exists req response body,
    (req = first_request self audio_data \/
     req = second_request self audio_data model_id language) /\
    http_post w req = Ok response /\
    httpx.status_code response = 200%Z /\
    httpx.json response = Ok body /\
    py_get body "text" (PyStr "") = Ok (text r) /\
    py_get body "confidence" (PyFloat 0.95) = Ok (confidence r).

(** The SDK path yields nothing: the SDK has no [speech_to_text], or
    [convert] raises. *)
Definition sdk_path_fails : Prop :=
  forall c,
    client self = Some c ->
    sdk_has_speech_to_text w c = true ->
    exists e,
      sdk_speech_to_text_convert w c audio_data (elevenlabs_model model_id)
        = Raise e.

(** Neither direct upload is answered with status 200. *)
Definition rest_path_fails : Prop :=
  forall req,
    req = first_request self audio_data \/
    req = second_request self audio_data model_id language ->
    match http_post w req with
    | Ok response => httpx.status_code response <> 200%Z
    | Raise _ => True
    end.

End Call.

(** The model name carried by the second upload as the specification words
    it: ["whisper-1"] or no name gives ["scribe_v1"], any other name is
    forwarded. *)
Definition specified_model (model_id : option string) : option string :=
  match model_id with
  | Some m => if String.eqb m "whisper-1" then Some "scribe_v1" else Some m
  | None => Some "scribe_v1"
  end.

(** The same rule with the empty name counted as no name. *)
Definition rewritten_model (model_id : option string) : option string :=
  match model_id with
  | Some m =>
      if String.eqb m "" || String.eqb m "whisper-1"
      then Some "scribe_v1" else Some m
  | None => Some "scribe_v1"
  end.

End stt.

(** ** Vocabulary of the statements about text-to-speech *)
Module tts.

(** The value of one voice setting as the specification words it: what the
    caller supplied under [k], or the fixed default. *)
Definition supplied_or (voice_settings : option (gmap string float))
    (k : string) (dflt : pyval) : pyval :=
  match voice_settings with
  | Some d =>
      match d !! k with
      | Some x => PyFloat x
      | None => dflt
      end
  | None => dflt
  end.

(** The settings the provider would receive if the supplied values and the
    defaults reached it as they are. *)
Definition specified_settings (voice_settings : option (gmap string float))
    : VoiceSettings :=
  {| stability := supplied_or voice_settings "stability" (PyFloat 0.5);
     similarity_boost :=
       supplied_or voice_settings "similarity_boost" (PyFloat 0.75);
     style := supplied_or voice_settings "style" (PyFloat 0.0);
     use_speaker_boost :=
       supplied_or voice_settings "use_speaker_boost" (PyBool true) |}.

(** What the SDK's constructor makes of the arguments as the specification
    words them. *)
Definition built_settings (w : World)
    (voice_settings : option (gmap string float)) : result VoiceSettings :=
  sdk_voice_settings w
    (supplied_or voice_settings "stability" (PyFloat 0.5))
    (supplied_or voice_settings "similarity_boost" (PyFloat 0.75))
    (supplied_or voice_settings "style" (PyFloat 0.0))
    (supplied_or voice_settings "use_speaker_boost" (PyBool true)).

End tts.

(** ** Vocabulary of the statements about the voice list *)
Module voices.

(** [info] is what pydantic makes of the provider's entry [v]. *)
Definition described (w : World) (v : sdk_voice) (info : main.VoiceInfo.t)
    : Prop :=
  validate_str w (sv_voice_id v) = Ok (main.VoiceInfo.voice_id info)
  /\ validate_str w (sv_name v) = Ok (main.VoiceInfo.name info)
  /\ validate_str w (sv_category v) = Ok (main.VoiceInfo.category info)
  /\ main.optional_str w (sv_description v)
     = Ok (main.VoiceInfo.description info)
  /\ main.optional_str w (sv_preview_url v)
     = Ok (main.VoiceInfo.preview_url info).

End voices.

(** ** Concrete worlds, on which the service can be run *)
Module scenario.

Import elevenlabs_client.

Definition pydantic_str (v : pyval) : result string :=
  match v with
  | PyStr s => Ok s
  | _ => Raise (PyExn "ValidationError" "Input should be a valid string")
  end.

Definition pydantic_float (v : pyval) : result float :=
  match v with
  | PyFloat f => Ok f
  | _ => Raise (PyExn "ValidationError" "Input should be a valid number")
  end.

(** A [VoiceSettings] constructor in the manner of the SDK's pydantic
    model: the three numbers are kept, [use_speaker_boost] is a boolean field
    that takes 1.0 and 0.0 for [True] and [False] and rejects other
    numbers. *)
Definition pydantic_voice_settings
    (stability similarity_boost style use_speaker_boost : pyval)
    : result VoiceSettings :=
  let build b :=
    Ok {| stability := stability; similarity_boost := similarity_boost;
          style := style; use_speaker_boost := PyBool b |} in
  match use_speaker_boost with
  | PyBool b => build b
  | PyFloat f =>
      if PrimFloat.eqb f 1 then build true
      else if PrimFloat.eqb f 0 then build false
      else Raise (PyExn "ValidationError"
                    "use_speaker_boost Input should be a valid boolean")
  | _ => Raise (PyExn "ValidationError"
                  "use_speaker_boost Input should be a valid boolean")
  end.

Definition no_env : string -> option string := fun _ => None.

Definition env_key (value : string) : string -> option string :=
  fun name => if String.eqb name "ELEVENLABS_API_KEY" then Some value else None.

(** A provider that answers every call. *)
Definition online (env : string -> option string) : World :=
  {| getenv := env;
     sdk_new := fun k => Ok {| sdk_api_key := k |};
     sdk_user_get_tier := fun _ => Ok "free";
     sdk_voice_settings := pydantic_voice_settings;
     sdk_generate := fun _ _ _ _ => Ok [[x49; x44]; [x33]; [x04; x00]];
     sdk_has_speech_to_text := fun _ => true;
     sdk_speech_to_text_convert := fun _ _ _ =>
       Ok {| st_text := Some (PyStr "hello world");
             st_confidence := None;
             st_str := "<transcript>" |};
     sdk_voices_get_all := fun _ => Ok [];
     fs_write_temp := fun _ => Ok "/tmp/tmpa1b2c3.wav";
     fs_open_sdk := fun _ => Ok ();
     fs_open_rest := fun _ => Ok ();
     fs_unlink := fun _ => Ok ();
     http_post := fun _ =>
       Ok {| httpx.status_code := 200;
             httpx.json := Ok (PyDict [("text", PyStr "hello world")]);
             httpx.text := "" |};
     validate_str := pydantic_str;
     validate_float := pydantic_float |}.

(** An SDK without [speech_to_text] and a provider that rejects every
    call. *)
Definition offline (env : string -> option string) : World :=
  {| getenv := env;
     sdk_new := fun k => Ok {| sdk_api_key := k |};
     sdk_user_get_tier := fun _ => Raise (PyExn "ApiError" "status_code: 401");
     sdk_voice_settings := pydantic_voice_settings;
     sdk_generate := fun _ _ _ _ => Raise (PyExn "ApiError" "status_code: 503");
     sdk_has_speech_to_text := fun _ => false;
     sdk_speech_to_text_convert := fun _ _ _ =>
       Raise (PyExn "ApiError" "status_code: 503");
     sdk_voices_get_all := fun _ => Raise (PyExn "ApiError" "status_code: 503");
     fs_write_temp := fun _ => Ok "/tmp/tmpa1b2c3.wav";
     fs_open_sdk := fun _ => Ok ();
     fs_open_rest := fun _ => Ok ();
     fs_unlink := fun _ => Ok ();
     http_post := fun _ =>
       Ok {| httpx.status_code := 503;
             httpx.json := Raise (PyExn "JSONDecodeError" "Expecting value");
             httpx.text := "Service Unavailable" |};
     validate_str := pydantic_str;
     validate_float := pydantic_float |}.

Definition connected : ElevenLabsClient :=
  {| api_key := "sk_test";
     client := Some {| sdk_api_key := "sk_test" |};
     _connected := true |}.

Definition closed : ElevenLabsClient := close connected.

(** A provider that answers, on a machine whose temporary directory cannot
    be written. *)
Definition disk_full : World :=
  {| getenv := no_env;
     sdk_new := sdk_new (online no_env);
     sdk_user_get_tier := sdk_user_get_tier (online no_env);
     sdk_voice_settings := pydantic_voice_settings;
     sdk_generate := sdk_generate (online no_env);
     sdk_has_speech_to_text := sdk_has_speech_to_text (online no_env);
     sdk_speech_to_text_convert := sdk_speech_to_text_convert (online no_env);
     sdk_voices_get_all := sdk_voices_get_all (online no_env);
     fs_write_temp := fun _ =>
       Raise (PyExn "OSError" "[Errno 28] No space left on device");
     fs_open_sdk := fs_open_sdk (online no_env);
     fs_open_rest := fs_open_rest (online no_env);
     fs_unlink := fs_unlink (online no_env);
     http_post := http_post (online no_env);
     validate_str := pydantic_str;
     validate_float := pydantic_float |}.

(** A provider whose SDK answers with a transcript object whose [text] is
    [None]. *)
Definition null_transcript : World :=
  {| getenv := no_env;
     sdk_new := sdk_new (online no_env);
     sdk_user_get_tier := sdk_user_get_tier (online no_env);
     sdk_voice_settings := pydantic_voice_settings;
     sdk_generate := sdk_generate (online no_env);
     sdk_has_speech_to_text := fun _ => true;
     sdk_speech_to_text_convert := fun _ _ _ =>
       Ok {| st_text := Some PyNone;
             st_confidence := Some (PyFloat 0.99);
             st_str := "<transcript>" |};
     sdk_voices_get_all := sdk_voices_get_all (online no_env);
     fs_write_temp := fs_write_temp (online no_env);
     fs_open_sdk := fs_open_sdk (online no_env);
     fs_open_rest := fs_open_rest (online no_env);
     fs_unlink := fs_unlink (online no_env);
     http_post := http_post (online no_env);
     validate_str := pydantic_str;
     validate_float := pydantic_float |}.

(** An SDK without [speech_to_text] and an endpoint that answers 200 with
    a JSON object that holds no transcript. *)
Definition empty_answer : World :=
  {| getenv := no_env;
     sdk_new := sdk_new (online no_env);
     sdk_user_get_tier := sdk_user_get_tier (online no_env);
     sdk_voice_settings := pydantic_voice_settings;
     sdk_generate := sdk_generate (online no_env);
     sdk_has_speech_to_text := fun _ => false;
     sdk_speech_to_text_convert := sdk_speech_to_text_convert (online no_env);
     sdk_voices_get_all := sdk_voices_get_all (online no_env);
     fs_write_temp := fs_write_temp (online no_env);
     fs_open_sdk := fs_open_sdk (online no_env);
     fs_open_rest := fs_open_rest (online no_env);
     fs_unlink := fs_unlink (online no_env);
     http_post := fun _ =>
       Ok {| httpx.status_code := 200;
             httpx.json := Ok (PyDict [("language_code", PyStr "en")]);
             httpx.text := "" |};
     validate_str := pydantic_str;
     validate_float := pydantic_float |}.

(** A provider with two voices in its catalog. *)
Definition with_voices : World :=
  {| getenv := no_env;
     sdk_new := sdk_new (online no_env);
     sdk_user_get_tier := sdk_user_get_tier (online no_env);
     sdk_voice_settings := pydantic_voice_settings;
     sdk_generate := sdk_generate (online no_env);
     sdk_has_speech_to_text := sdk_has_speech_to_text (online no_env);
     sdk_speech_to_text_convert := sdk_speech_to_text_convert (online no_env);
     sdk_voices_get_all := fun _ =>
       Ok [ {| sv_voice_id := PyStr "21m00Tcm4TlvDq8ikWAM";
               sv_name := PyStr "Rachel";
               sv_category := PyStr "premade";
               sv_description := PyNone;
               sv_preview_url := PyStr "https://example.org/rachel.mp3";
               sv_available_for_tiers := PyList [];
               sv_settings := None |};
            {| sv_voice_id := PyStr "AZnzlk1XvdvUeBnXmlld";
               sv_name := PyStr "Domi";
               sv_category := PyStr "premade";
               sv_description := PyStr "strong";
               sv_preview_url := PyNone;
               sv_available_for_tiers := PyList [];
               sv_settings := Some (0.5%float, 0.75%float) |} ];
     fs_write_temp := fs_write_temp (online no_env);
     fs_open_sdk := fs_open_sdk (online no_env);
     fs_open_rest := fs_open_rest (online no_env);
     fs_unlink := fs_unlink (online no_env);
     http_post := http_post (online no_env);
     validate_str := pydantic_str;
     validate_float := pydantic_float |}.

End scenario.

(** * Facts about the base64 codec *)

Example b64encode_foob :
  Base64.b64encode [x66; x6f; x6f; x62] = "Zm9vYg==".
Proof. reflexivity. Qed.

Example b64decode_foob :
  Base64.b64decode "Zm9vYg==" = Ok [x66; x6f; x6f; x62].
Proof. reflexivity. Qed.

Example b64decode_skips_foreign_characters :
  Base64.b64decode "Zm9v!Y g==" = Ok [x66; x6f; x6f; x62].
Proof. reflexivity. Qed.

Example b64decode_abc :
  Base64.b64decode "abc" = Raise (PyExn "binascii.Error" "Incorrect padding").
Proof. reflexivity. Qed.

Section ByteEnumeration.

Import b64.

Lemma all_bytes_complete (b : byte) : In b all_bytes.
Proof.
  unfold all_bytes. apply in_map_iff.
  exists (N.to_nat (Byte.to_N b)). split.
  - rewrite N2Nat.id. destruct b; reflexivity.
  - apply in_seq. pose proof (Byte.to_N_bounded b). lia.
Qed.

Lemma forall_byte (P : byte -> bool) :
  forallb P all_bytes = true -> forall b, P b = true.
Proof.
  intros H b. rewrite forallb_forall in H. apply H, all_bytes_complete.
Qed.

Lemma forall_byte2 (P : byte -> byte -> bool) :
  forallb (fun a => forallb (P a) all_bytes) all_bytes = true ->
  forall a b, P a b = true.
Proof.
  intros H a b. apply forall_byte.
  exact (forall_byte (fun a => forallb (P a) all_bytes) H a).
Qed.

End ByteEnumeration.

Section Roundtrip.

Import Base64 b64.
#[local] Open Scope N_scope.

Lemma check_first_all a b : check_first a b = true.
Proof. revert a b. apply forall_byte2. vm_compute. reflexivity. Qed.

Lemma check_second_all b c : check_second b c = true.
Proof. revert b c. apply forall_byte2. vm_compute. reflexivity. Qed.

Lemma check_third_all c : check_third c = true.
Proof. revert c. apply forall_byte. vm_compute. reflexivity. Qed.

Lemma sextet_ok_elim n :
  sextet_ok n = true ->
  Ascii.eqb (b2a n) BASE64_PAD = false /\ table_a2b_base64 (b2a n) = Some n.
Proof.
  unfold sextet_ok. intros [Hpad Htab]%andb_prop. split.
  - now apply negb_true_iff.
  - destruct (table_a2b_base64 (b2a n)) as [m|]; [|discriminate].
    apply N.eqb_eq in Htab. now subst.
Qed.

(** One alphabet character moves the decoder one position in the quad. *)
Lemma loop_sextet n s quad_pos leftchar pads out :
  sextet_ok n = true ->
  a2b_base64_loop (String (b2a n) s) quad_pos leftchar pads out =
    if quad_pos =? 0 then a2b_base64_loop s 1 n 0 out
    else if quad_pos =? 1 then
      a2b_base64_loop s 2 (N.land n 15) 0
        (u8 (N.lor (N.shiftl leftchar 2) (N.shiftr n 4)) :: out)
    else if quad_pos =? 2 then
      a2b_base64_loop s 3 (N.land n 3) 0
        (u8 (N.lor (N.shiftl leftchar 4) (N.shiftr n 2)) :: out)
    else
      a2b_base64_loop s 0 0 0 (u8 (N.lor (N.shiftl leftchar 6) n) :: out).
Proof.
  intros [Hpad Htab]%sextet_ok_elim.
  cbn [a2b_base64_loop]. now rewrite Hpad, Htab.
Qed.

Lemma loop_two a b s leftchar pads out :
  a2b_base64_loop
    (String (b2a (sextet0 a)) (String (b2a (sextet1 a b)) s))
    0 leftchar pads out
  = a2b_base64_loop s 2 (N.shiftr (Byte.to_N b) 4) 0 (a :: out).
Proof.
  pose proof (check_first_all a b) as H. unfold check_first in H.
  apply andb_prop in H as [[[H0 H1]%andb_prop Ha]%andb_prop Hl].
  apply Byte.byte_dec_bl in Ha. apply N.eqb_eq in Hl.
  rewrite (loop_sextet _ _ 0), (loop_sextet _ _ 1) by assumption.
  cbn [N.eqb Pos.eqb]. now rewrite Ha, Hl.
Qed.

Lemma loop_three a b c s leftchar pads out :
  a2b_base64_loop
    (String (b2a (sextet0 a))
       (String (b2a (sextet1 a b)) (String (b2a (sextet2 b c)) s)))
    0 leftchar pads out
  = a2b_base64_loop s 3 (N.shiftr (Byte.to_N c) 6) 0 (b :: a :: out).
Proof.
  rewrite loop_two.
  pose proof (check_second_all b c) as H. unfold check_second in H.
  apply andb_prop in H as [[H2 Hb]%andb_prop Hl].
  apply Byte.byte_dec_bl in Hb. apply N.eqb_eq in Hl.
  rewrite (loop_sextet _ _ 2) by assumption.
  cbn [N.eqb Pos.eqb]. now rewrite Hb, Hl.
Qed.

Lemma loop_four a b c s leftchar pads out :
  a2b_base64_loop
    (String (b2a (sextet0 a))
       (String (b2a (sextet1 a b))
          (String (b2a (sextet2 b c)) (String (b2a (sextet3 c)) s))))
    0 leftchar pads out
  = a2b_base64_loop s 0 0 0 (c :: b :: a :: out).
Proof.
  rewrite loop_three.
  pose proof (check_third_all c) as H. unfold check_third in H.
  apply andb_prop in H as [H3 Hc].
  apply Byte.byte_dec_bl in Hc.
  rewrite (loop_sextet _ _ 3) by assumption.
  cbn [N.eqb Pos.eqb]. now rewrite Hc.
Qed.

Lemma sextet1_zero a :
  N.shiftl (N.land (Byte.to_N a) 3) 4 = sextet1 a x00.
Proof. unfold sextet1. cbn [Byte.to_N]. now rewrite N.shiftr_0_l, N.lor_0_r. Qed.

Lemma sextet2_zero b :
  N.shiftl (N.land (Byte.to_N b) 15) 2 = sextet2 b x00.
Proof. unfold sextet2. cbn [Byte.to_N]. now rewrite N.shiftr_0_l, N.lor_0_r. Qed.

Lemma loop_b2a_base64 (n : nat) :
  forall (bs out : bytes),
    (length bs < n)%nat ->
    a2b_base64_loop (b2a_base64 bs) 0 0 0 out = Ok (rev out ++ bs).
Proof.
  induction n as [|n IH]; intros bs out Hlen; [lia|].
  destruct bs as [|a [|b [|c rest]]].
  - cbn. now rewrite app_nil_r.
  - cbn [b2a_base64]. rewrite sextet1_zero.
    change (N.shiftr (Byte.to_N a) 2) with (sextet0 a).
    rewrite loop_two. reflexivity.
  - cbn [b2a_base64]. rewrite sextet2_zero.
    change (N.shiftr (Byte.to_N a) 2) with (sextet0 a).
    change (N.lor _ _) with (sextet1 a b).
    rewrite loop_three. cbn. now rewrite <- app_assoc.
  - cbn [b2a_base64].
    change (N.shiftr (Byte.to_N a) 2) with (sextet0 a).
    change (N.lor (N.shiftl (N.land (Byte.to_N a) 3) 4) _) with (sextet1 a b).
    change (N.lor (N.shiftl (N.land (Byte.to_N b) 15) 2) _) with (sextet2 b c).
    change (N.land (Byte.to_N c) 63) with (sextet3 c).
    rewrite loop_four, IH by (cbn in Hlen; lia).
    cbn. now rewrite <- !app_assoc.
Qed.

Lemma b2a_is_ascii n : (N_of_ascii (b2a n) <? 128) = true.
Proof.
  unfold b2a. generalize (N.to_nat n) as k. intro k.
  do 64 (destruct k as [|k]; [reflexivity|]).
  cbn. now destruct k.
Qed.

Lemma b2a_base64_is_ascii (n : nat) :
  forall bs : bytes, (length bs < n)%nat -> is_ascii (b2a_base64 bs) = true.
Proof.
  induction n as [|n IH]; intros bs Hlen; [lia|].
  destruct bs as [|a [|b [|c rest]]]; cbn [b2a_base64 is_ascii];
    rewrite ?b2a_is_ascii; try reflexivity.
  cbn [andb]. apply IH. cbn in Hlen. lia.
Qed.

(** Decoding what [b64encode] produced gives the payload back. *)
Lemma b64decode_b64encode (bs : bytes) :
  b64decode (b64encode bs) = Ok bs.
Proof.
  unfold b64decode, b64encode, a2b_base64.
  rewrite (b2a_base64_is_ascii (S (length bs))) by lia.
  now rewrite (loop_b2a_base64 (S (length bs))) by lia.
Qed.

End Roundtrip.

(** * Facts about the effect layer *)

Section Effects.

Context {A B : Type}.

Lemma outcome_bind (m : M A) (f : A -> M B) :
  outcome (m ≫= f) =
    match outcome m with
    | Ok a => outcome (f a)
    | Raise e => Raise e
    end.
Proof.
  destruct m as [l [a|e]]; cbn; [|reflexivity]. now destruct (f a).
Qed.

Lemma log_bind (m : M A) (f : A -> M B) :
  log_of (m ≫= f) =
    log_of m ++ match outcome m with
                | Ok a => log_of (f a)
                | Raise _ => []
                end.
Proof.
  destruct m as [l [a|e]]; cbn; [|now rewrite app_nil_r]. now destruct (f a).
Qed.

Lemma outcome_try_except (m : M A) (h : pyexn -> M A) :
  outcome (try_except m h) =
    match outcome m with
    | Ok a => Ok a
    | Raise e => outcome (h e)
    end.
Proof.
  destruct m as [l [a|e]]; cbn; [reflexivity|]. now destruct (h e).
Qed.

Lemma log_try_except (m : M A) (h : pyexn -> M A) :
  log_of (try_except m h) =
    log_of m ++ match outcome m with
                | Ok _ => []
                | Raise e => log_of (h e)
                end.
Proof.
  destruct m as [l [a|e]]; cbn; [now rewrite app_nil_r|]. now destruct (h e).
Qed.

Lemma outcome_try_finally (m : M A) (c : M unit) :
  outcome (try_finally m c) =
    match outcome c with
    | Ok _ => outcome m
    | Raise e => Raise e
    end.
Proof. destruct m as [l r], c as [l' [u|e]]; reflexivity. Qed.

Lemma log_try_finally (m : M A) (c : M unit) :
  log_of (try_finally m c) = log_of m ++ log_of c.
Proof. destruct m as [l r], c as [l' [u|e]]; reflexivity. Qed.

End Effects.

Lemma outcome_lift {A : Type} (r : result A) : outcome (lift r) = r.
Proof. reflexivity. Qed.

Lemma log_lift {A : Type} (r : result A) : log_of (lift r) = [].
Proof. reflexivity. Qed.

Lemma outcome_ret {A : Type} (a : A) : outcome (mret a : M A) = Ok a.
Proof. reflexivity. Qed.

Lemma log_ret {A : Type} (a : A) : log_of (mret a : M A) = [].
Proof. reflexivity. Qed.

(** * Facts about the adapter's speech-to-text *)

Section SpeechToText.

Import elevenlabs_client stt.

Variables (w : World) (self : ElevenLabsClient) (audio_data : bytes)
          (model_id language : option string).

Lemma sdk_attempt_outcome (temp_path : string) :
  outcome (sdk_attempt w self temp_path audio_data model_id language) = Ok None
  \/ exists r,
       outcome (sdk_attempt w self temp_path audio_data model_id language)
         = Ok (Some r)
       /\ from_sdk w self audio_data model_id r
       /\ elevenlabs_client.language r = str_or language "en".
Proof.
  unfold sdk_attempt, from_sdk.
  rewrite outcome_try_except, outcome_bind, outcome_lift.
  destruct (fs_open_sdk w temp_path); [|now left].
  destruct (client self) as [c|]; [|now left].
  destruct (sdk_has_speech_to_text w c) eqn:Hhas; [|now left].
  rewrite outcome_bind. cbn [call outcome snd].
  destruct (sdk_speech_to_text_convert _ _ _ _) as [result|e] eqn:Hconv;
    [|now left].
  right. eexists. split; [reflexivity|]. cbn. eauto 10.
Qed.

Lemma sdk_attempt_fails (temp_path : string) :
  sdk_path_fails w self audio_data model_id ->
  outcome (sdk_attempt w self temp_path audio_data model_id language) = Ok None.
Proof.
  intros Hfail.
  destruct (sdk_attempt_outcome temp_path) as [H|(r & _ & Hsdk & _)];
    [exact H|].
  destruct Hsdk as (c & result & Hc & Hhas & Hconv & _).
  destruct (Hfail c Hc Hhas) as [e He]. congruence.
Qed.

Lemma sdk_attempt_log (temp_path : string) (req : httpx.Request) :
  ~ In (Post req)
      (log_of (sdk_attempt w self temp_path audio_data model_id language)).
Proof.
  unfold sdk_attempt. rewrite log_try_except, outcome_bind, log_bind.
  rewrite outcome_lift, log_lift.
  destruct (fs_open_sdk w temp_path); cbn; [|tauto].
  destruct (client self) as [c|]; cbn; [|tauto].
  destruct (sdk_has_speech_to_text w c); cbn; [|tauto].
  destruct (sdk_speech_to_text_convert _ _ _ _); cbn;
    intros [H|[]]; discriminate.
Qed.

Lemma from_response_ok (response : httpx.Response) (r : transcript) :
  outcome (from_response response language) = Ok r ->
  exists body,
    httpx.json response = Ok body /\
    py_get body "text" (PyStr "") = Ok (text r) /\
    py_get body "confidence" (PyFloat 0.95) = Ok (confidence r) /\
    elevenlabs_client.language r = str_or language "en".
Proof.
  unfold from_response. rewrite outcome_bind, outcome_lift.
  destruct (httpx.json response) as [body|e]; [|discriminate].
  rewrite outcome_bind, outcome_lift.
  destruct (py_get body "text" _) as [t|e] eqn:Ht; [|discriminate].
  rewrite outcome_bind, outcome_lift.
  destruct (py_get body "confidence" _) as [c|e] eqn:Hc; [|discriminate].
  cbn. intros [= <-]. exists body. cbn. auto.
Qed.

Lemma from_response_log (response : httpx.Response) :
  log_of (from_response response language) = [].
Proof.
  unfold from_response.
  destruct (httpx.json response) as [body|e]; [|reflexivity]. cbn.
  destruct (py_get body "text" _) as [t|e]; [|reflexivity]. cbn.
  destruct (py_get body "confidence" _) as [c|e]; reflexivity.
Qed.

Lemma direct_api_ok (temp_path : string) (r : transcript) :
  outcome (direct_api w self temp_path audio_data model_id language) = Ok r ->
  from_rest w self audio_data model_id language r
  /\ elevenlabs_client.language r = str_or language "en".
Proof.
  unfold direct_api, from_rest.
  rewrite outcome_bind, outcome_lift.
  destruct (fs_open_rest w temp_path); [|discriminate].
  rewrite outcome_bind. cbn [call outcome snd].
  destruct (http_post w (first_request _ _)) as [r1|e] eqn:H1; [|discriminate].
  destruct (httpx.status_code r1 =? 200)%Z eqn:Hs1.
  - intros (body & ? & ? & ? & ?)%from_response_ok. apply Z.eqb_eq in Hs1.
    split; [|assumption]. exists (first_request self audio_data), r1, body.
    eauto 10.
  - rewrite outcome_bind. cbn [call outcome snd].
    destruct (http_post w (second_request _ _ _ _)) as [r2|e] eqn:H2;
      [|discriminate].
    destruct (httpx.status_code r2 =? 200)%Z eqn:Hs2; [|discriminate].
    intros (body & ? & ? & ? & ?)%from_response_ok. apply Z.eqb_eq in Hs2.
    split; [|assumption].
    exists (second_request self audio_data model_id language), r2, body.
    eauto 10.
Qed.

Lemma direct_api_fails (temp_path : string) :
  rest_path_fails w self audio_data model_id language ->
  exists e,
    outcome (direct_api w self temp_path audio_data model_id language)
      = Raise e.
Proof.
  intros Hfail. unfold direct_api.
  rewrite outcome_bind, outcome_lift.
  destruct (fs_open_rest w temp_path); [|eauto].
  rewrite outcome_bind. cbn [call outcome snd].
  pose proof (Hfail _ (or_introl eq_refl)) as H1.
  destruct (http_post w (first_request _ _)) as [r1|e]; [|eauto].
  apply Z.eqb_neq in H1. rewrite H1.
  rewrite outcome_bind. cbn [call outcome snd].
  pose proof (Hfail _ (or_intror eq_refl)) as H2.
  destruct (http_post w (second_request _ _ _ _)) as [r2|e]; [|eauto].
  apply Z.eqb_neq in H2. rewrite H2. cbn. eauto.
Qed.

Lemma direct_api_log (temp_path : string) (req : httpx.Request) :
  In (Post req)
     (log_of (direct_api w self temp_path audio_data model_id language)) ->
  req = first_request self audio_data
  \/ req = second_request self audio_data model_id language.
Proof.
  unfold direct_api. rewrite log_bind, outcome_lift, log_lift.
  destruct (fs_open_rest w temp_path); [|intros []].
  rewrite log_bind. cbn [call outcome log_of fst snd app].
  intros [[= <-]|H]; [now left|].
  destruct (http_post w (first_request _ _)) as [r1|e]; [|destruct H].
  destruct (httpx.status_code r1 =? 200)%Z.
  - rewrite from_response_log in H. destruct H.
  - rewrite log_bind in H. cbn [call outcome log_of fst snd app] in H.
    destruct H as [[= <-]|H]; [now right|].
    destruct (http_post w (second_request _ _ _ _)) as [r2|e]; [|destruct H].
    destruct (httpx.status_code r2 =? 200)%Z.
    + rewrite from_response_log in H. destruct H.
    + destruct H.
Qed.

Lemma transcribe_ok (r : transcript) :
  outcome (_transcribe_audio w self audio_data model_id language) = Ok r ->
  (from_sdk w self audio_data model_id r
   \/ from_rest w self audio_data model_id language r)
  /\ elevenlabs_client.language r = str_or language "en".
Proof.
  unfold _transcribe_audio. rewrite outcome_bind, outcome_lift.
  destruct (fs_write_temp w audio_data) as [temp_path|e]; [|discriminate].
  rewrite outcome_try_finally, outcome_lift.
  destruct (fs_unlink w temp_path); [|discriminate].
  rewrite outcome_bind.
  destruct (sdk_attempt_outcome temp_path) as [->|(r' & -> & Hsdk & Hlang)].
  - intros [Hrest Hlang]%direct_api_ok. auto.
  - cbn. intros [= <-]. auto.
Qed.

Lemma transcribe_fails :
  sdk_path_fails w self audio_data model_id ->
  rest_path_fails w self audio_data model_id language ->
  exists e,
    outcome (_transcribe_audio w self audio_data model_id language) = Raise e.
Proof.
  intros Hsdk Hrest. unfold _transcribe_audio.
  rewrite outcome_bind, outcome_lift.
  destruct (fs_write_temp w audio_data) as [temp_path|e]; [|eauto].
  rewrite outcome_try_finally, outcome_lift.
  destruct (fs_unlink w temp_path); [|eauto].
  rewrite outcome_bind, (sdk_attempt_fails _ Hsdk).
  now apply direct_api_fails.
Qed.

Lemma transcribe_log (req : httpx.Request) :
  In (Post req)
     (log_of (_transcribe_audio w self audio_data model_id language)) ->
  req = first_request self audio_data
  \/ req = second_request self audio_data model_id language.
Proof.
  unfold _transcribe_audio. rewrite log_bind, outcome_lift, log_lift.
  destruct (fs_write_temp w audio_data) as [temp_path|e]; [|intros []].
  rewrite log_try_finally, log_lift, app_nil_r, log_bind.
  cbn [app]. intros [H|H]%in_app_or.
  - now apply sdk_attempt_log in H.
  - destruct (outcome (sdk_attempt _ _ _ _ _ _)) as [[r|]|e]; try destruct H.
    now apply direct_api_log in H.
Qed.

(** A connected adapter always returns: the transcript of
    [_transcribe_audio], or the fallback record. *)
Lemma speech_to_text_returns :
  is_connected self = true ->
  exists r,
    outcome (speech_to_text w self audio_data model_id language) = Ok r
    /\ (r = fallback language
        \/ outcome (_transcribe_audio w self audio_data model_id language)
            = Ok r).
Proof.
  intros Hconn. unfold speech_to_text. rewrite Hconn. cbn [negb].
  rewrite outcome_try_except, outcome_bind.
  destruct (outcome (_transcribe_audio _ _ _ _ _)) as [r|e]; [|cbn; eauto].
  rewrite outcome_bind, outcome_lift.
  destruct (py_slice_100 (text r)); cbn; eauto.
Qed.

Lemma speech_to_text_log (req : httpx.Request) :
  In (Post req)
     (log_of (speech_to_text w self audio_data model_id language)) ->
  req = first_request self audio_data
  \/ req = second_request self audio_data model_id language.
Proof.
  unfold speech_to_text. destruct (is_connected self); cbn [negb]; [|intros []].
  rewrite log_try_except, log_bind. intros [H|H]%in_app_or.
  - apply in_app_or in H as [H|H]; [now apply transcribe_log|].
    destruct (outcome (_transcribe_audio _ _ _ _ _)) as [r|e]; [|destruct H].
    rewrite log_bind, log_lift in H. cbn [app] in H.
    destruct (outcome (lift _)); destruct H.
  - destruct (outcome (_ ≫= _)); destruct H.
Qed.

Lemma speech_to_text_language (r : transcript) :
  outcome (speech_to_text w self audio_data model_id language) = Ok r ->
  elevenlabs_client.language r = str_or language "en".
Proof.
  unfold speech_to_text.
  destruct (is_connected self) eqn:Hconn; cbn [negb]; [|discriminate].
  intros Hr. destruct (speech_to_text_returns Hconn) as (r' & Hr' & Hcase).
  unfold speech_to_text in Hr'. rewrite Hconn in Hr'. cbn [negb] in Hr'.
  assert (r' = r) as -> by congruence.
  destruct Hcase as [->|Hok]; [reflexivity|].
  now apply transcribe_ok in Hok.
Qed.

End SpeechToText.

(** * The adapter's text-to-speech *)

Section TextToSpeech.

Import elevenlabs_client tts.

Lemma dict_get_supplied (d : gmap string float) (k : string) (dflt : pyval) :
  dict_get d k dflt = supplied_or (Some d) k dflt.
Proof. unfold dict_get, supplied_or. now destruct (d !! k). Qed.

Lemma make_settings_built (w : World)
    (voice_settings : option (gmap string float)) :
  make_settings w voice_settings = built_settings w voice_settings.
Proof.
  unfold make_settings, built_settings.
  destruct voice_settings as [d|]; [|reflexivity].
  case_bool_decide as Hd.
  - now rewrite !dict_get_supplied.
  - subst d. unfold supplied_or. now rewrite !lookup_empty.
Qed.

Lemma is_connected_client (self : ElevenLabsClient) :
  is_connected self = true -> exists c, client self = Some c.
Proof.
  unfold is_connected. intros [_ H]%andb_prop.
  apply bool_decide_eq_true in H. destruct (client self); [eauto|done].
Qed.

Lemma text_to_speech_log (w : World) (self : ElevenLabsClient)
    (text voice_id : string) (model_id : option string)
    (voice_settings : option (gmap string float)) :
  is_connected self = true ->
  log_of (text_to_speech w self text voice_id model_id voice_settings) =
    match built_settings w voice_settings with
    | Ok settings =>
        [Generate text {| voice_id := voice_id; settings := settings |} model_id]
    | Raise _ => []
    end.
Proof.
  intros Hconn. destruct (is_connected_client _ Hconn) as [c Hc].
  unfold text_to_speech, _generate_speech. rewrite Hconn, Hc. cbn [negb].
  rewrite make_settings_built, log_try_except, log_bind, outcome_bind.
  rewrite log_lift, outcome_lift.
  destruct (built_settings w voice_settings) as [settings|e]; [|reflexivity].
  rewrite log_bind, outcome_bind. cbn [call log_of outcome fst snd app].
  now destruct (sdk_generate w c _ _ _).
Qed.

End TextToSpeech.

(** * The paths on which speech-to-text returns a transcript *)

Section SpeechToTextSuccess.

Import elevenlabs_client.

Variables (w : World) (self : ElevenLabsClient) (audio_data : bytes)
          (model_id language : option string).

(** Once the temporary file is written and can be removed, a transcript of
    [_transcribe_audio]'s body whose text is a string is what
    [speech_to_text] returns. *)
Lemma speech_to_text_of_body (temp_path : string) (s : string) (c : pyval)
    (body : M transcript) :
  is_connected self = true ->
  fs_write_temp w audio_data = Ok temp_path ->
  fs_unlink w temp_path = Ok () ->
  (r ← sdk_attempt w self temp_path audio_data model_id language;
   match r with
   | Some result => mret result
   | None => direct_api w self temp_path audio_data model_id language
   end) = body ->
  outcome body
    = Ok {| text := PyStr s; confidence := c;
            elevenlabs_client.language := str_or language "en" |} ->
  outcome (speech_to_text w self audio_data model_id language)
    = Ok {| text := PyStr s; confidence := c;
            elevenlabs_client.language := str_or language "en" |}.
Proof.
  intros Hconn Hp Hunlink Hbody Hout.
  unfold speech_to_text. rewrite Hconn. cbn [negb].
  rewrite outcome_try_except, outcome_bind.
  unfold _transcribe_audio at 1.
  rewrite outcome_bind, outcome_lift, Hp, outcome_try_finally, outcome_lift,
    Hunlink, Hbody, Hout.
  reflexivity.
Qed.

Lemma sdk_transcript_returned (temp_path : string) (c : sdk_client)
    (result : sdk_transcript) (s : string) :
  is_connected self = true ->
  fs_write_temp w audio_data = Ok temp_path ->
  fs_open_sdk w temp_path = Ok () ->
  fs_unlink w temp_path = Ok () ->
  client self = Some c ->
  sdk_has_speech_to_text w c = true ->
  sdk_speech_to_text_convert w c audio_data (elevenlabs_model model_id)
    = Ok result ->
  default (PyStr (st_str result)) (st_text result) = PyStr s ->
  outcome (speech_to_text w self audio_data model_id language)
    = Ok {| text := PyStr s;
            confidence := default (PyFloat 0.95) (st_confidence result);
            elevenlabs_client.language := str_or language "en" |}.
Proof.
  intros Hconn Hp Hopen Hunlink Hc Hhas Hconv Htext.
  apply (speech_to_text_of_body temp_path s _ _ Hconn Hp Hunlink eq_refl).
  rewrite outcome_bind. unfold sdk_attempt.
  rewrite outcome_try_except, outcome_bind, outcome_lift, Hopen, Hc, Hhas.
  rewrite outcome_bind. cbn [call outcome snd]. rewrite Hconv. cbn.
  now rewrite Htext.
Qed.

Lemma from_response_dict (response : httpx.Response)
    (kvs : list (string * pyval)) :
  httpx.json response = Ok (PyDict kvs) ->
  from_response response language
    = ([], Ok {| text := default (PyStr "") (assoc "text" kvs);
                 confidence := default (PyFloat 0.95) (assoc "confidence" kvs);
                 elevenlabs_client.language := str_or language "en" |}).
Proof. intros Hjson. unfold from_response. now rewrite Hjson. Qed.

Lemma first_upload_transcript_returned (temp_path : string)
    (response : httpx.Response) (kvs : list (string * pyval)) (s : string) :
  is_connected self = true ->
  fs_write_temp w audio_data = Ok temp_path ->
  fs_open_rest w temp_path = Ok () ->
  fs_unlink w temp_path = Ok () ->
  stt.sdk_path_fails w self audio_data model_id ->
  http_post w (first_request self audio_data) = Ok response ->
  httpx.status_code response = 200%Z ->
  httpx.json response = Ok (PyDict kvs) ->
  default (PyStr "") (assoc "text" kvs) = PyStr s ->
  outcome (speech_to_text w self audio_data model_id language)
    = Ok {| text := PyStr s;
            confidence := default (PyFloat 0.95) (assoc "confidence" kvs);
            elevenlabs_client.language := str_or language "en" |}.
Proof.
  intros Hconn Hp Hopen Hunlink Hsdk Hpost Hstatus Hjson Htext.
  apply (speech_to_text_of_body temp_path s _ _ Hconn Hp Hunlink eq_refl).
  rewrite outcome_bind, (sdk_attempt_fails _ _ _ _ _ _ Hsdk).
  unfold direct_api. rewrite outcome_bind, outcome_lift, Hopen, outcome_bind.
  cbn [call outcome snd]. rewrite Hpost, Hstatus. cbn [Z.eqb Pos.eqb].
  rewrite (from_response_dict _ _ Hjson). cbn. now rewrite Htext.
Qed.

Lemma second_upload_transcript_returned (temp_path : string)
    (first_response response : httpx.Response) (kvs : list (string * pyval))
    (s : string) :
  is_connected self = true ->
  fs_write_temp w audio_data = Ok temp_path ->
  fs_open_rest w temp_path = Ok () ->
  fs_unlink w temp_path = Ok () ->
  stt.sdk_path_fails w self audio_data model_id ->
  http_post w (first_request self audio_data) = Ok first_response ->
  httpx.status_code first_response <> 200%Z ->
  http_post w (second_request self audio_data model_id language)
    = Ok response ->
  httpx.status_code response = 200%Z ->
  httpx.json response = Ok (PyDict kvs) ->
  default (PyStr "") (assoc "text" kvs) = PyStr s ->
  outcome (speech_to_text w self audio_data model_id language)
    = Ok {| text := PyStr s;
            confidence := default (PyFloat 0.95) (assoc "confidence" kvs);
            elevenlabs_client.language := str_or language "en" |}.
Proof.
  intros Hconn Hp Hopen Hunlink Hsdk Hpost1 Hstatus1 Hpost2 Hstatus2 Hjson Htext.
  apply (speech_to_text_of_body temp_path s _ _ Hconn Hp Hunlink eq_refl).
  rewrite outcome_bind, (sdk_attempt_fails _ _ _ _ _ _ Hsdk).
  unfold direct_api. rewrite outcome_bind, outcome_lift, Hopen, outcome_bind.
  cbn [call outcome snd]. rewrite Hpost1.
  apply Z.eqb_neq in Hstatus1. rewrite Hstatus1, outcome_bind.
  cbn [call outcome snd]. rewrite Hpost2, Hstatus2. cbn [Z.eqb Pos.eqb].
  rewrite (from_response_dict _ _ Hjson). cbn. now rewrite Htext.
Qed.

End SpeechToTextSuccess.

(** * The facade *)

Section Facade.

Import elevenlabs_client.

Lemma guard_500_result {A : Type} (body : M A) :
  snd (main.guard_500 body) =
    match outcome body with
    | Ok a => main.Response a
    | Raise e => main.HTTPException 500 (exn_msg e)
    end.
Proof. now destruct body as [l [a|e]]. Qed.

Lemma elevenlabs_model_rewritten (model_id : option string) :
  elevenlabs_model model_id = stt.rewritten_model model_id.
Proof.
  unfold elevenlabs_model, stt.rewritten_model, str_or.
  destruct model_id as [m|]; [|reflexivity].
  destruct (String.eqb m "") eqn:Hm; [reflexivity|].
  cbn [orb]. now destruct (String.eqb m "whisper-1").
Qed.

Lemma text_to_speech_disconnected (w : World) (self : ElevenLabsClient)
    (text voice_id : string) (model_id : option string)
    (voice_settings : option (gmap string float)) :
  is_connected self = false ->
  text_to_speech w self text voice_id model_id voice_settings
    = ([], Raise (PyExn "RuntimeError" "Client not connected")).
Proof. intros H. unfold text_to_speech. now rewrite H. Qed.

End Facade.

(** * The claims *)

Section Claims.

Import elevenlabs_client.

(** C1, as stated, fails: the placeholder is not tied to the failure of both
    paths.  When the SDK's [convert] answers with a transcript whose [text] is
    [None], the log line that slices the text raises inside the [try] and the
    placeholder is returned, although the SDK path did not fail. *)
Lemma C1_counterexample :
  ~ (forall (w : World) (self : ElevenLabsClient) (audio_data : bytes)
            (model_id language : option string),
       is_connected self = true ->
       exists r,
         outcome (speech_to_text w self audio_data model_id language) = Ok r
         /\ (stt.from_sdk w self audio_data model_id r
             \/ stt.from_rest w self audio_data model_id language r
             \/ (r = fallback language
                 /\ stt.sdk_path_fails w self audio_data model_id
                 /\ stt.rest_path_fails w self audio_data model_id language))).
Proof.
  intros H.
  destruct (H scenario.null_transcript scenario.connected [x52; x49; x46; x46]
              (Some "whisper-1") None eq_refl) as (r & Hr & Hcase).
  assert (r = fallback None) as -> by (cbv in Hr; now injection Hr as <-).
  destruct Hcase as [Hsdk|[Hrest|(_ & Hfails & _)]].
  - destruct Hsdk as (c & result & _ & _ & Hconv & Htext & _).
    cbn in Hconv. injection Hconv as <-. discriminate Htext.
  - destruct Hrest as (req & response & body & _ & Hpost & _ & Hjson & Htext & _).
    cbn in Hpost. injection Hpost as <-. cbn in Hjson. injection Hjson as <-.
    discriminate Htext.
  - destruct (Hfails {| sdk_api_key := "sk_test" |} eq_refl eq_refl) as [e He].
    discriminate He.
Qed.

(** C1, amended. A connected adapter's [speech_to_text] never raises,
    whatever the audio bytes and whatever the provider, the file system and
    the network do: it returns a record built from the SDK's transcript or
    from the JSON of a 200 response to a direct upload, or the placeholder
    record, whose text is the fixed sentence and whose confidence is 0.80.
    When the SDK path yields nothing and no direct upload is answered with
    200 it returns the placeholder.  When the temporary file is written, read
    and removed without error and the SDK, the first upload or the second
    upload delivers a transcript whose text is a string, it returns that
    transcript. *)
Theorem C1_speech_to_text_never_raises (w : World) (self : ElevenLabsClient)
    (audio_data : bytes) (model_id language : option string) :
  is_connected self = true ->
  exists r,
    outcome (speech_to_text w self audio_data model_id language) = Ok r
    /\ (stt.from_sdk w self audio_data model_id r
        \/ stt.from_rest w self audio_data model_id language r
        \/ r = fallback language)
    /\ (stt.sdk_path_fails w self audio_data model_id ->
        stt.rest_path_fails w self audio_data model_id language ->
        r = fallback language)
    /\ (forall temp_path c result s,
          fs_write_temp w audio_data = Ok temp_path ->
          fs_open_sdk w temp_path = Ok () ->
          fs_unlink w temp_path = Ok () ->
          client self = Some c ->
          sdk_has_speech_to_text w c = true ->
          sdk_speech_to_text_convert w c audio_data (elevenlabs_model model_id)
            = Ok result ->
          default (PyStr (st_str result)) (st_text result) = PyStr s ->
          r = {| text := PyStr s;
                 confidence := default (PyFloat 0.95) (st_confidence result);
                 elevenlabs_client.language := str_or language "en" |})
    /\ (forall temp_path response kvs s,
          fs_write_temp w audio_data = Ok temp_path ->
          fs_open_rest w temp_path = Ok () ->
          fs_unlink w temp_path = Ok () ->
          stt.sdk_path_fails w self audio_data model_id ->
          http_post w (first_request self audio_data) = Ok response ->
          httpx.status_code response = 200%Z ->
          httpx.json response = Ok (PyDict kvs) ->
          default (PyStr "") (assoc "text" kvs) = PyStr s ->
          r = {| text := PyStr s;
                 confidence :=
                   default (PyFloat 0.95) (assoc "confidence" kvs);
                 elevenlabs_client.language := str_or language "en" |})
    /\ (forall temp_path first_response response kvs s,
          fs_write_temp w audio_data = Ok temp_path ->
          fs_open_rest w temp_path = Ok () ->
          fs_unlink w temp_path = Ok () ->
          stt.sdk_path_fails w self audio_data model_id ->
          http_post w (first_request self audio_data) = Ok first_response ->
          httpx.status_code first_response <> 200%Z ->
          http_post w (second_request self audio_data model_id language)
            = Ok response ->
          httpx.status_code response = 200%Z ->
          httpx.json response = Ok (PyDict kvs) ->
          default (PyStr "") (assoc "text" kvs) = PyStr s ->
          r = {| text := PyStr s;
                 confidence :=
                   default (PyFloat 0.95) (assoc "confidence" kvs);
                 elevenlabs_client.language := str_or language "en" |})
    /\ text (fallback language) =
         PyStr "STT API temporarily unavailable - this is a fallback response to test the integration pipeline."
    /\ confidence (fallback language) = PyFloat 0.80.
Proof.
  intros Hconn.
  destruct (speech_to_text_returns w self audio_data model_id language Hconn)
    as (r & Hr & Hcase).
  exists r. split; [exact Hr|]. repeat split.
  - destruct Hcase as [->|Hok]; [auto|].
    apply transcribe_ok in Hok as [[?|?] _]; auto.
  - intros Hsdk Hrest. destruct Hcase as [->|Hok]; [reflexivity|].
    destruct (transcribe_fails w self audio_data model_id language Hsdk Hrest)
      as [e He].
    congruence.
  - intros temp_path c result s Hp Hopen Hunlink Hc Hhas Hconv Htext.
    pose proof (sdk_transcript_returned w self audio_data model_id language
                  temp_path c result s Hconn Hp Hopen Hunlink Hc Hhas Hconv
                  Htext) as Hret.
    congruence.
  - intros temp_path response kvs s Hp Hopen Hunlink Hsdk Hpost Hst Hjson Htext.
    pose proof (first_upload_transcript_returned w self audio_data model_id
                  language temp_path response kvs s Hconn Hp Hopen Hunlink Hsdk
                  Hpost Hst Hjson Htext) as Hret.
    congruence.
  - intros temp_path first_response response kvs s Hp Hopen Hunlink Hsdk
      Hpost1 Hst1 Hpost2 Hst2 Hjson Htext.
    pose proof (second_upload_transcript_returned w self audio_data model_id
                  language temp_path first_response response kvs s Hconn Hp
                  Hopen Hunlink Hsdk Hpost1 Hst1 Hpost2 Hst2 Hjson Htext)
      as Hret.
    congruence.
Qed.

Lemma C1_witness :
  outcome (speech_to_text (scenario.online scenario.no_env)
             scenario.connected [x52; x49; x46; x46] (Some "whisper-1") None)
    = Ok {| text := PyStr "hello world";
            confidence := PyFloat 0.95;
            elevenlabs_client.language := "en" |}.
Proof.
  destruct (C1_speech_to_text_never_raises
              (scenario.online scenario.no_env) scenario.connected
              [x52; x49; x46; x46] (Some "whisper-1") None eq_refl)
    as (r & Hr & _ & _ & Hsdk & _).
  rewrite Hr. f_equal.
  apply (Hsdk "/tmp/tmpa1b2c3.wav" {| sdk_api_key := "sk_test" |}
           {| st_text := Some (PyStr "hello world");
              st_confidence := None;
              st_str := "<transcript>" |} "hello world");
    reflexivity.
Defined.

(** C2, as stated, fails: a request whose [audio_data] is ["abc"] (a
    dangling quad, rejected by the decoder) is answered with status 500 by
    an initialised facade, not with a 4xx. *)
Lemma C2_counterexample :
  ~ (forall (w : World) (elevenlabs_client : option ElevenLabsClient)
            (request : main.STTRequest.t) (t_before t_after : float) (e : pyexn),
       Base64.b64decode (main.STTRequest.audio_data request) = Raise e ->
       (400 <= main.status_of
                 (snd (main.speech_to_text w elevenlabs_client request
                         t_before t_after)) < 500)%Z).
Proof.
  intros H.
  specialize (H (scenario.online scenario.no_env) (Some scenario.connected)
                {| main.STTRequest.audio_data := "abc";
                   main.STTRequest.model_id := Some "whisper-1";
                   main.STTRequest.language := None |}
                10%float 11%float _ eq_refl).
  vm_compute in H. destruct H as [_ H]. discriminate H.
Qed.

(** C2, amended. A [/stt] request whose [audio_data] the base64 decoder
    rejects is answered with status 500 carrying the decoder's message when
    the adapter is initialised, and with status 503 when it is not; the
    provider is not called. *)
Theorem C2_bad_base64_is_500 (w : World)
    (elevenlabs_client : option ElevenLabsClient)
    (request : main.STTRequest.t) (t_before t_after : float) (e : pyexn) :
  Base64.b64decode (main.STTRequest.audio_data request) = Raise e ->
  main.speech_to_text w elevenlabs_client request t_before t_after =
    match elevenlabs_client with
    | Some _ => ([], main.HTTPException 500 (exn_msg e))
    | None => ([], main.HTTPException 503 "ElevenLabs client not initialized")
    end.
Proof.
  intros He. unfold main.speech_to_text.
  destruct elevenlabs_client as [c|]; [|reflexivity].
  rewrite He. reflexivity.
Qed.

Lemma C2_witness :
  main.speech_to_text (scenario.online scenario.no_env)
    (Some scenario.connected)
    {| main.STTRequest.audio_data := "abc";
       main.STTRequest.model_id := Some "whisper-1";
       main.STTRequest.language := None |} 10%float 11%float
  = ([], main.HTTPException 500 "Incorrect padding").
Proof.
  apply (C2_bad_base64_is_500 (scenario.online scenario.no_env)
           (Some scenario.connected)
           {| main.STTRequest.audio_data := "abc";
              main.STTRequest.model_id := Some "whisper-1";
              main.STTRequest.language := None |} 10%float 11%float
           (PyExn "binascii.Error" "Incorrect padding")).
  reflexivity.
Defined.

(** C3, as stated, fails: [/models] has no initialisation guard and
    answers 200 before the adapter exists. *)
Lemma C3_counterexample :
  ~ (forall w : World,
       main.status_of (snd (main.get_voices w None)) = 503%Z
       /\ main.status_of main.get_models = 503%Z).
Proof.
  intros H. destruct (H (scenario.offline scenario.no_env)) as [_ Hm].
  discriminate Hm.
Qed.

(** C3, amended. Before the adapter is initialised [/voices] answers 503
    without calling the provider; [/models] answers 200 with the static
    catalog whatever the state of the adapter.  Both are total. *)
Theorem C3_voices_503_models_200 (w : World) :
  main.get_voices w None
    = ([], main.HTTPException 503 "ElevenLabs client not initialized")
  /\ main.status_of (snd (main.get_voices w None)) = 503%Z
  /\ main.status_of main.get_models = 200%Z
  /\ exists catalog,
       main.get_models = main.Response catalog
       /\ map main.id (main.tts_models catalog)
          = ["eleven_monolingual_v1"; "eleven_multilingual_v1";
             "eleven_multilingual_v2"]
       /\ map main.id (main.stt_models catalog) = ["whisper-1"].
Proof. repeat split. eexists. repeat split. Qed.

(** C4. In every successful [/tts] response, decoding [audio_data] from
    base64 gives back exactly the bytes the adapter returned, and [size] is
    the number of those bytes. *)
Theorem C4_tts_roundtrip (w : World)
    (elevenlabs_client : option ElevenLabsClient) (request : main.TTSRequest.t)
    (t_before t_after : float) (stamp : string) (body : main.TTSResponse.t) :
  snd (main.text_to_speech w elevenlabs_client request t_before t_after stamp)
    = main.Response body ->
  exists c payload,
    elevenlabs_client = Some c
    /\ outcome
         (text_to_speech w c (main.TTSRequest.text request)
            (str_or (main.TTSRequest.voice_id request)
               (default "21m00Tcm4TlvDq8ikWAM"
                  (getenv w "ELEVENLABS_VOICE_ID")))
            (main.TTSRequest.model_id request)
            (main.TTSRequest.voice_settings request)) = Ok payload
    /\ Base64.b64decode (main.TTSResponse.audio_data body) = Ok payload
    /\ main.TTSResponse.size body = Z.of_nat (length payload).
Proof.
  unfold main.text_to_speech.
  destruct elevenlabs_client as [c|]; [|discriminate].
  rewrite guard_500_result, outcome_bind.
  destruct (outcome (text_to_speech _ _ _ _ _ _)) as [payload|e] eqn:Hp;
    [|discriminate].
  rewrite outcome_bind, outcome_lift.
  destruct (main.TTSRequest.model_id request) as [m|]; [|discriminate].
  cbn. intros [= <-]. exists c, payload. cbn.
  rewrite b64decode_b64encode. auto.
Qed.

Lemma C4_witness :
  exists c payload,
    Some scenario.connected = Some c
    /\ outcome
         (text_to_speech (scenario.online scenario.no_env) c "Hello"
            "21m00Tcm4TlvDq8ikWAM" (Some "eleven_monolingual_v1") None)
       = Ok payload
    /\ Base64.b64decode "SUQzBAA=" = Ok payload
    /\ 5%Z = Z.of_nat (length payload).
Proof.
  apply (C4_tts_roundtrip (scenario.online scenario.no_env)
           (Some scenario.connected)
           {| main.TTSRequest.text := "Hello";
              main.TTSRequest.voice_id := None;
              main.TTSRequest.model_id := Some "eleven_monolingual_v1";
              main.TTSRequest.voice_settings := None |}
           10%float 11%float "2025-01-01 00:00:00"
           {| main.TTSResponse.audio_data := "SUQzBAA=";
              main.TTSResponse.voice_id := "21m00Tcm4TlvDq8ikWAM";
              main.TTSResponse.model_id := "eleven_monolingual_v1";
              main.TTSResponse.duration := 1%float;
              main.TTSResponse.size := 5;
              main.TTSResponse.generated_at := "2025-01-01 00:00:00" |}).
  reflexivity.
Defined.

(** C5. With no adapter, [/tts] and [/stt] answer 503.  With an adapter,
    an exception raised by the adapter's call is answered with status 500
    whose detail is the exception's message. *)
Theorem C5_uninitialized_503_adapter_error_500 (w : World)
    (tts_request : main.TTSRequest.t) (stt_request : main.STTRequest.t)
    (t_before t_after : float) (stamp : string) :
  (snd (main.text_to_speech w None tts_request t_before t_after stamp)
     = main.HTTPException 503 "ElevenLabs client not initialized"
   /\ snd (main.speech_to_text w None stt_request t_before t_after)
      = main.HTTPException 503 "ElevenLabs client not initialized")
  /\ (forall c e,
        outcome
          (text_to_speech w c (main.TTSRequest.text tts_request)
             (str_or (main.TTSRequest.voice_id tts_request)
                (default "21m00Tcm4TlvDq8ikWAM"
                   (getenv w "ELEVENLABS_VOICE_ID")))
             (main.TTSRequest.model_id tts_request)
             (main.TTSRequest.voice_settings tts_request)) = Raise e ->
        snd (main.text_to_speech w (Some c) tts_request t_before t_after stamp)
          = main.HTTPException 500 (exn_msg e))
  /\ (forall c audio e,
        Base64.b64decode (main.STTRequest.audio_data stt_request) = Ok audio ->
        outcome
          (speech_to_text w c audio (main.STTRequest.model_id stt_request)
             (main.STTRequest.language stt_request)) = Raise e ->
        snd (main.speech_to_text w (Some c) stt_request t_before t_after)
          = main.HTTPException 500 (exn_msg e)).
Proof.
  split; [split; reflexivity|]. split.
  - intros c e He. unfold main.text_to_speech.
    now rewrite guard_500_result, outcome_bind, He.
  - intros c audio e Ha He. unfold main.speech_to_text.
    now rewrite guard_500_result, outcome_bind, outcome_lift, Ha,
      outcome_bind, He.
Qed.

Lemma C5_witness :
  snd (main.text_to_speech (scenario.offline scenario.no_env)
         (Some scenario.connected)
         {| main.TTSRequest.text := "Hello";
            main.TTSRequest.voice_id := None;
            main.TTSRequest.model_id := Some "eleven_monolingual_v1";
            main.TTSRequest.voice_settings := None |}
         10%float 11%float "2025-01-01 00:00:00")
    = main.HTTPException 500 "status_code: 503"
  /\ snd (main.speech_to_text (scenario.offline scenario.no_env)
            (Some scenario.closed)
            {| main.STTRequest.audio_data := "UklGRg==";
               main.STTRequest.model_id := Some "whisper-1";
               main.STTRequest.language := None |}
            10%float 11%float)
     = main.HTTPException 500 "Client not connected".
Proof.
  pose proof (C5_uninitialized_503_adapter_error_500
                (scenario.offline scenario.no_env)
                {| main.TTSRequest.text := "Hello";
                   main.TTSRequest.voice_id := None;
                   main.TTSRequest.model_id := Some "eleven_monolingual_v1";
                   main.TTSRequest.voice_settings := None |}
                {| main.STTRequest.audio_data := "UklGRg==";
                   main.STTRequest.model_id := Some "whisper-1";
                   main.STTRequest.language := None |}
                10%float 11%float "2025-01-01 00:00:00")
    as (_ & Htts & Hstt).
  split.
  - exact (Htts scenario.connected (PyExn "ApiError" "status_code: 503")
             eq_refl).
  - exact (Hstt scenario.closed [x52; x49; x46; x46]
             (PyExn "RuntimeError" "Client not connected") eq_refl eq_refl).
Defined.

(** C6. [/health] always answers 200 with the five fields of its schema,
    whether or not the adapter exists or is connected; the handler has no
    failing path. *)
Theorem C6_health_always_200
    (elevenlabs_client : option ElevenLabsClient) (start_time now : float) :
  main.status_of (main.health_check elevenlabs_client start_time now) = 200%Z
  /\ exists body,
       main.health_check elevenlabs_client start_time now = main.Response body
       /\ main.HealthResponse.status body = "healthy"
       /\ main.HealthResponse.service body = "elevenlabs-microservice"
       /\ main.HealthResponse.version body = "1.0.0"
       /\ main.HealthResponse.uptime body = PrimFloat.sub now start_time
       /\ main.HealthResponse.elevenlabs_connected body =
            match elevenlabs_client with
            | Some c => is_connected c
            | None => false
            end.
Proof. split; [reflexivity|]. eexists. repeat split. Qed.

(** C7, as stated, fails: with [ELEVENLABS_API_KEY] set to the empty string
    (present, and not the placeholder) start-up raises although the provider
    would accept the adapter. *)
Lemma C7_counterexample :
  ~ (forall (w : World) (elevenlabs_client : option ElevenLabsClient),
       (exists e, snd (main.lifespan w elevenlabs_client) = Raise e) <->
       (getenv w "ELEVENLABS_API_KEY" = None
        \/ getenv w "ELEVENLABS_API_KEY" = Some "your-elevenlabs-api-key-here"
        \/ exists k e,
             getenv w "ELEVENLABS_API_KEY" = Some k
             /\ snd (initialize w (__init__ k)) = Raise e)).
Proof.
  intros H.
  destruct (H (scenario.online (scenario.env_key "")) None) as [Hfail _].
  destruct Hfail as [Hk|[Hk|(k & e & Hk & He)]].
  - eexists. reflexivity.
  - discriminate Hk.
  - discriminate Hk.
  - discriminate He.
Qed.

(** C7, amended. Start-up raises if and only if [ELEVENLABS_API_KEY] is
    absent, empty or equal to ["your-elevenlabs-api-key-here"], or the
    adapter's initialisation with that key raises; otherwise it completes
    and leaves a connected adapter in the global. *)
Theorem C7_startup_fails_iff (w : World)
    (elevenlabs_client : option ElevenLabsClient) :
  ((exists e, snd (main.lifespan w elevenlabs_client) = Raise e) <->
   (getenv w "ELEVENLABS_API_KEY" = None
    \/ getenv w "ELEVENLABS_API_KEY" = Some ""
    \/ getenv w "ELEVENLABS_API_KEY" = Some "your-elevenlabs-api-key-here"
    \/ exists k e,
         getenv w "ELEVENLABS_API_KEY" = Some k
         /\ snd (initialize w (__init__ k)) = Raise e))
  /\ match snd (main.lifespan w elevenlabs_client) with
     | Ok _ =>
         exists c,
           fst (main.lifespan w elevenlabs_client) = Some c
           /\ is_connected c = true
     | Raise _ => True
     end.
Proof.
  unfold main.lifespan.
  destruct (getenv w "ELEVENLABS_API_KEY") as [k|] eqn:Hkey; cbn -[initialize].
  2: { split; [|exact I]. split; [auto|]. intros _. eauto. }
  destruct (String.eqb_spec k "") as [->|Hne]; cbn -[initialize].
  { split; [|exact I]. split; [auto|]. intros _. eauto. }
  case_bool_decide as Hph; cbn -[initialize].
  { split; [|exact I]. split; [auto|]. intros _. eauto. }
  destruct (initialize w (__init__ k)) as [c r] eqn:Hinit. cbn.
  split.
  - split.
    + intros [e ->]. do 3 right. exists k, e. now rewrite Hinit.
    + intros [?|[[= ->]|[[= ->]|(k' & e & [= <-] & He)]]]; try done.
      rewrite Hinit in He. eauto.
  - destruct r as [[]|e]; [|exact I].
    exists c. split; [reflexivity|].
    unfold initialize in Hinit. cbn in Hinit.
    destruct (sdk_new w k) as [sc|?]; [|discriminate].
    destruct (sdk_user_get_tier w sc); [|discriminate].
    now injection Hinit as <-.
Qed.

(** C8, as stated, fails: a caller-supplied empty model name is not
    forwarded, the second upload carries ["scribe_v1"]. *)
Lemma C8_counterexample :
  ~ (forall (w : World) (self : ElevenLabsClient) (audio_data : bytes)
            (model_id language : option string) (req : httpx.Request)
            (d : gmap string (option string)),
       In (Post req) (log_of (speech_to_text w self audio_data model_id language)) ->
       httpx.data req = Some d ->
       d !! "model_id" = Some (stt.specified_model model_id)).
Proof.
  intros H.
  specialize (H (scenario.offline scenario.no_env) scenario.connected
                [x52; x49; x46; x46] (Some "") None
                (second_request scenario.connected [x52; x49; x46; x46]
                   (Some "") None)
                {[ "model_id" := Some "scribe_v1" ]}).
  assert (({[ "model_id" := Some "scribe_v1" ]} : gmap string (option string))
            !! "model_id" = Some (Some "")) as Habs.
  { apply H; [right; left|]; reflexivity. }
  discriminate Habs.
Qed.

(** C8, amended. Every upload that [speech_to_text] sends with form data is
    the second attempt of the direct path, and its [model_id] is
    ["scribe_v1"] when the caller's model name is ["whisper-1"], empty or
    absent, and the caller's model name otherwise. *)
Theorem C8_second_upload_model (w : World) (self : ElevenLabsClient)
    (audio_data : bytes) (model_id language : option string)
    (req : httpx.Request) (d : gmap string (option string)) :
  In (Post req) (log_of (speech_to_text w self audio_data model_id language)) ->
  httpx.data req = Some d ->
  req = second_request self audio_data model_id language
  /\ d !! "model_id" = Some (stt.rewritten_model model_id).
Proof.
  intros [->| ->]%speech_to_text_log; [discriminate|].
  cbn. intros [= <-]. split; [reflexivity|].
  rewrite <- elevenlabs_model_rewritten.
  destruct (str_truthy language); reflexivity.
Qed.

Lemma C8_witness :
  ({[ "model_id" := Some "scribe_v1" ]} : gmap string (option string))
    !! "model_id" = Some (stt.rewritten_model (Some "whisper-1")).
Proof.
  apply (C8_second_upload_model (scenario.offline scenario.no_env)
           scenario.connected [x52; x49; x46; x46] (Some "whisper-1") None
           (second_request scenario.connected [x52; x49; x46; x46]
              (Some "whisper-1") None)).
  - right; left; reflexivity.
  - reflexivity.
Defined.

(** C9, as stated, fails: the supplied values go through the SDK's
    [VoiceSettings] constructor before they reach the provider.  With a
    constructor that validates as the SDK's does, a supplied
    [use_speaker_boost] of 1.0 reaches [generate] as [True], and a supplied
    0.5 is rejected, so that nothing is passed to the provider at all. *)
Lemma C9_counterexample :
  ~ (forall (w : World) (self : ElevenLabsClient) (text voice_id : string)
            (model_id : option string)
            (voice_settings : option (gmap string float))
            (txt : string) (voice : Voice) (model : option string),
       In (Generate txt voice model)
          (log_of (text_to_speech w self text voice_id model_id voice_settings)) ->
       settings voice = tts.specified_settings voice_settings)
  /\ ~ (forall (w : World) (self : ElevenLabsClient) (text voice_id : string)
               (model_id : option string)
               (voice_settings : option (gmap string float)),
          is_connected self = true ->
          exists voice,
            In (Generate text voice model_id)
               (log_of (text_to_speech w self text voice_id model_id
                          voice_settings))
            /\ settings voice = tts.specified_settings voice_settings).
Proof.
  split.
  - intros H.
    specialize (H (scenario.online scenario.no_env) scenario.connected
                  "Hello" "21m00Tcm4TlvDq8ikWAM" (Some "eleven_monolingual_v1")
                  (Some {[ "use_speaker_boost" := 1%float ]})
                  "Hello"
                  {| voice_id := "21m00Tcm4TlvDq8ikWAM";
                     settings := {| stability := PyFloat 0.5;
                                    similarity_boost := PyFloat 0.75;
                                    style := PyFloat 0.0;
                                    use_speaker_boost := PyBool true |} |}
                  (Some "eleven_monolingual_v1")
                  (or_introl eq_refl)).
    discriminate H.
  - intros H.
    destruct (H (scenario.online scenario.no_env) scenario.connected
                "Hello" "21m00Tcm4TlvDq8ikWAM" (Some "eleven_monolingual_v1")
                (Some {[ "use_speaker_boost" := 0.5%float ]}) eq_refl)
      as (voice & Hin & _).
    exact Hin.
Qed.

(** C9, amended. Each voice setting the caller supplies ([stability],
    [similarity_boost], [style], [use_speaker_boost]) is handed unchanged to
    the SDK's [VoiceSettings] constructor, and each one the caller leaves out
    is handed over as its default: 0.5, 0.75, 0.0 and [True].  The one
    [generate] call carries the settings object the constructor returns; when
    the constructor raises, its exception propagates and the provider is not
    called. *)
Theorem C9_voice_settings_passed_through (w : World) (self : ElevenLabsClient)
    (text voice_id : string) (model_id : option string)
    (voice_settings : option (gmap string float)) :
  (forall txt voice model,
     In (Generate txt voice model)
        (log_of (text_to_speech w self text voice_id model_id voice_settings)) ->
     sdk_voice_settings w
       (tts.supplied_or voice_settings "stability" (PyFloat 0.5))
       (tts.supplied_or voice_settings "similarity_boost" (PyFloat 0.75))
       (tts.supplied_or voice_settings "style" (PyFloat 0.0))
       (tts.supplied_or voice_settings "use_speaker_boost" (PyBool true))
     = Ok (settings voice))
  /\ (is_connected self = true ->
      forall built,
        sdk_voice_settings w
          (tts.supplied_or voice_settings "stability" (PyFloat 0.5))
          (tts.supplied_or voice_settings "similarity_boost" (PyFloat 0.75))
          (tts.supplied_or voice_settings "style" (PyFloat 0.0))
          (tts.supplied_or voice_settings "use_speaker_boost" (PyBool true))
        = Ok built ->
        log_of (text_to_speech w self text voice_id model_id voice_settings)
        = [Generate text {| voice_id := voice_id; settings := built |} model_id])
  /\ (is_connected self = true ->
      forall e,
        sdk_voice_settings w
          (tts.supplied_or voice_settings "stability" (PyFloat 0.5))
          (tts.supplied_or voice_settings "similarity_boost" (PyFloat 0.75))
          (tts.supplied_or voice_settings "style" (PyFloat 0.0))
          (tts.supplied_or voice_settings "use_speaker_boost" (PyBool true))
        = Raise e ->
        text_to_speech w self text voice_id model_id voice_settings
        = ([], Raise e)).
Proof.
  fold (tts.built_settings w voice_settings).
  split; [|split].
  - intros txt voice model.
    destruct (is_connected self) eqn:Hconn.
    + rewrite text_to_speech_log by assumption.
      destruct (tts.built_settings w voice_settings) as [built|e]; [|intros []].
      intros [[= <- <- <-]|[]]. reflexivity.
    + rewrite text_to_speech_disconnected by assumption. intros [].
  - intros Hconn built Hb. rewrite text_to_speech_log by assumption.
    now rewrite Hb.
  - intros Hconn e He. destruct (is_connected_client _ Hconn) as [c Hc].
    unfold text_to_speech, _generate_speech.
    rewrite Hconn, Hc, make_settings_built, He. reflexivity.
Qed.

Lemma C9_witness :
  log_of (text_to_speech (scenario.online scenario.no_env) scenario.connected
            "Hello" "21m00Tcm4TlvDq8ikWAM" (Some "eleven_monolingual_v1")
            (Some {[ "stability" := 0.3%float ]}))
  = [Generate "Hello"
       {| voice_id := "21m00Tcm4TlvDq8ikWAM";
          settings := {| stability := PyFloat 0.3;
                         similarity_boost := PyFloat 0.75;
                         style := PyFloat 0.0;
                         use_speaker_boost := PyBool true |} |}
       (Some "eleven_monolingual_v1")].
Proof.
  apply (proj1 (proj2 (C9_voice_settings_passed_through
                         (scenario.online scenario.no_env) scenario.connected
                         "Hello" "21m00Tcm4TlvDq8ikWAM"
                         (Some "eleven_monolingual_v1")
                         (Some {[ "stability" := 0.3%float ]})))).
  - reflexivity.
  - reflexivity.
Defined.

(** C10, as stated, fails: with the empty string supplied as [language] the
    returned record says ["en"], not the supplied value. *)
Lemma C10_counterexample :
  ~ (forall (w : World) (self : ElevenLabsClient) (audio_data : bytes)
            (model_id language : option string) (r : transcript),
       outcome (speech_to_text w self audio_data model_id language) = Ok r ->
       elevenlabs_client.language r = default "en" language).
Proof.
  intros H.
  specialize (H (scenario.online scenario.no_env) scenario.connected
                [x52; x49; x46; x46] (Some "whisper-1") (Some "") _ eq_refl).
  discriminate H.
Qed.

(** C10, amended. On every return path of [speech_to_text] the [language]
    of the record is the caller's [language] when it is supplied and not
    empty, and ["en"] otherwise; nothing the provider returns enters it. *)
Theorem C10_language_is_callers_or_en (w : World) (self : ElevenLabsClient)
    (audio_data : bytes) (model_id language : option string) (r : transcript) :
  outcome (speech_to_text w self audio_data model_id language) = Ok r ->
  elevenlabs_client.language r =
    match language with
    | Some l => if String.eqb l "" then "en" else l
    | None => "en"
    end.
Proof. apply speech_to_text_language. Qed.

Lemma C10_witness :
  "fr" = match Some "fr" with
         | Some l => if String.eqb l "" then "en" else l
         | None => "en"
         end.
Proof.
  apply (C10_language_is_callers_or_en
           (scenario.offline scenario.no_env) scenario.connected
           [x52; x49; x46; x46] (Some "whisper-1") (Some "fr")
           (fallback (Some "fr"))).
  reflexivity.
Defined.

End Claims.


(** * Further properties of the adapter *)

Section AdapterLifecycle.

Import elevenlabs_client.

Lemma initialize_outcome (w : World) (self : ElevenLabsClient) :
  (is_connected (fst (initialize w self)) = true
   <-> snd (initialize w self) = Ok ())
  /\ api_key (fst (initialize w self)) = api_key self.
Proof.
  unfold initialize.
  destruct (sdk_new w (api_key self)) as [c|e]; cbn.
  - destruct (sdk_user_get_tier w c) as [tier|e]; cbn; split; try reflexivity;
      split; try discriminate; reflexivity.
  - split; [|reflexivity]. split; discriminate.
Qed.

(** X1. [initialize] leaves the adapter connected exactly when it returns
    without raising, and never changes the key. *)
Theorem initialize_connected_iff_returns (w : World) (self : ElevenLabsClient) :
  (is_connected (fst (initialize w self)) = true
   <-> snd (initialize w self) = Ok ())
  /\ api_key (fst (initialize w self)) = api_key self.
Proof. exact (initialize_outcome w self). Qed.

(** X2. An adapter that is not connected (never initialised, failed to
    initialise, or closed) raises [RuntimeError("Client not connected")] from
    every operation and contacts the provider for none of them. *)
Theorem disconnected_adapter_raises (w : World) (self : ElevenLabsClient)
    (text voice_id : string) (tts_model : option string)
    (voice_settings : option (gmap string float))
    (audio_data : bytes) (stt_model language : option string) :
  is_connected self = false ->
  text_to_speech w self text voice_id tts_model voice_settings
    = ([], Raise (PyExn "RuntimeError" "Client not connected"))
  /\ speech_to_text w self audio_data stt_model language
     = ([], Raise (PyExn "RuntimeError" "Client not connected"))
  /\ get_voices w self
     = ([], Raise (PyExn "RuntimeError" "Client not connected")).
Proof.
  intros H. unfold text_to_speech, speech_to_text, get_voices.
  now rewrite H.
Qed.

Lemma disconnected_adapter_raises_witness :
  get_voices (scenario.online scenario.no_env) (close scenario.connected)
    = ([], Raise (PyExn "RuntimeError" "Client not connected")).
Proof.
  apply (disconnected_adapter_raises (scenario.online scenario.no_env)
           (close scenario.connected) "Hello" "21m00Tcm4TlvDq8ikWAM" None None
           [x52; x49] None None eq_refl).
Defined.

End AdapterLifecycle.

(** * The calls that speech-to-text makes *)

Section SpeechToTextCalls.

Import elevenlabs_client.

Variables (w : World) (self : ElevenLabsClient) (audio_data : bytes)
          (model_id language : option string).

Lemma sdk_attempt_shape (temp_path : string) :
  (log_of (sdk_attempt w self temp_path audio_data model_id language) = []
   /\ outcome (sdk_attempt w self temp_path audio_data model_id language)
      = Ok None)
  \/ exists c,
       client self = Some c
       /\ log_of (sdk_attempt w self temp_path audio_data model_id language)
          = [SttConvert audio_data (elevenlabs_model model_id)]
       /\ match sdk_speech_to_text_convert w c audio_data
                  (elevenlabs_model model_id) with
          | Ok _ =>
              exists r,
                outcome (sdk_attempt w self temp_path audio_data model_id
                           language) = Ok (Some r)
          | Raise _ =>
              outcome (sdk_attempt w self temp_path audio_data model_id
                         language) = Ok None
          end.
Proof.
  unfold sdk_attempt.
  rewrite log_try_except, outcome_try_except, log_bind, outcome_bind.
  rewrite outcome_lift, log_lift.
  destruct (fs_open_sdk w temp_path); [|now left].
  destruct (client self) as [c|]; [|now left].
  destruct (sdk_has_speech_to_text w c); [|now left].
  right. exists c. split; [reflexivity|].
  rewrite log_bind, outcome_bind. cbn [call log_of outcome fst snd].
  destruct (sdk_speech_to_text_convert _ _ _ _); cbn; eauto.
Qed.

Lemma direct_api_shape (temp_path : string) :
  log_of (direct_api w self temp_path audio_data model_id language) = []
  \/ log_of (direct_api w self temp_path audio_data model_id language)
     = [Post (first_request self audio_data)]
  \/ (log_of (direct_api w self temp_path audio_data model_id language)
      = [Post (first_request self audio_data);
         Post (second_request self audio_data model_id language)]
      /\ exists response,
           http_post w (first_request self audio_data) = Ok response
           /\ httpx.status_code response <> 200%Z).
Proof.
  unfold direct_api. rewrite log_bind, outcome_lift, log_lift.
  destruct (fs_open_rest w temp_path); [|now left].
  rewrite log_bind. cbn [call log_of outcome fst snd app].
  destruct (http_post w (first_request _ _)) as [r1|e] eqn:H1; [|now right; left].
  destruct (httpx.status_code r1 =? 200)%Z eqn:Hs1.
  - rewrite from_response_log. now right; left.
  - right; right. apply Z.eqb_neq in Hs1. split; [|eauto].
    rewrite log_bind. cbn [call log_of outcome fst snd app].
    destruct (http_post w (second_request _ _ _ _)) as [r2|e]; [|reflexivity].
    destruct (httpx.status_code r2 =? 200)%Z; [|reflexivity].
    now rewrite from_response_log.
Qed.

Lemma transcribe_log_eq :
  log_of (_transcribe_audio w self audio_data model_id language) =
    match fs_write_temp w audio_data with
    | Ok temp_path =>
        log_of (sdk_attempt w self temp_path audio_data model_id language)
        ++ match outcome (sdk_attempt w self temp_path audio_data model_id
                            language) with
           | Ok None =>
               log_of (direct_api w self temp_path audio_data model_id language)
           | _ => []
           end
    | Raise _ => []
    end.
Proof.
  unfold _transcribe_audio. rewrite log_bind, outcome_lift, log_lift.
  destruct (fs_write_temp w audio_data) as [temp_path|e]; [|reflexivity].
  rewrite log_try_finally, log_lift, app_nil_r, log_bind. cbn [app].
  now destruct (outcome (sdk_attempt _ _ _ _ _ _)) as [[r|]|e].
Qed.

Lemma speech_to_text_log_eq :
  log_of (speech_to_text w self audio_data model_id language) =
    if is_connected self
    then log_of (_transcribe_audio w self audio_data model_id language)
    else [].
Proof.
  unfold speech_to_text. destruct (is_connected self); [|reflexivity].
  cbn [negb]. rewrite log_try_except, outcome_bind, log_bind.
  destruct (outcome (_transcribe_audio _ _ _ _ _)) as [r|e];
    [|now rewrite !app_nil_r].
  rewrite log_bind, outcome_bind, log_lift, outcome_lift.
  destruct (py_slice_100 (text r)); cbn; now rewrite !app_nil_r.
Qed.

Lemma speech_to_text_log_cases :
  exists sdk posts,
    log_of (speech_to_text w self audio_data model_id language) = sdk ++ posts
    /\ (sdk = [] \/ sdk = [SttConvert audio_data (elevenlabs_model model_id)])
    /\ (posts = []
        \/ posts = [Post (first_request self audio_data)]
        \/ posts = [Post (first_request self audio_data);
                    Post (second_request self audio_data model_id language)])
    /\ (forall c result,
          client self = Some c ->
          sdk <> [] ->
          sdk_speech_to_text_convert w c audio_data (elevenlabs_model model_id)
            = Ok result ->
          posts = [])
    /\ (length posts = 2%nat ->
        exists response,
          http_post w (first_request self audio_data) = Ok response
          /\ httpx.status_code response <> 200%Z).
Proof.
  rewrite speech_to_text_log_eq.
  destruct (is_connected self).
  2: { exists [], []. repeat split; auto; discriminate. }
  rewrite transcribe_log_eq.
  destruct (fs_write_temp w audio_data) as [temp_path|e].
  2: { exists [], []. repeat split; auto; discriminate. }
  destruct (sdk_attempt_shape temp_path) as [[-> ->]|(c & Hc & -> & Hout)].
  - exists [], (log_of (direct_api w self temp_path audio_data model_id language)).
    split; [reflexivity|]. split; [auto|].
    destruct (direct_api_shape temp_path) as [->|[->|[-> Hresp]]];
      repeat split; auto; try discriminate; congruence.
  - destruct (sdk_speech_to_text_convert w c audio_data _) as [res|e] eqn:Hconv.
    + destruct Hout as [r ->].
      exists [SttConvert audio_data (elevenlabs_model model_id)], [].
      repeat split; auto; discriminate.
    + rewrite Hout.
      exists [SttConvert audio_data (elevenlabs_model model_id)],
        (log_of (direct_api w self temp_path audio_data model_id language)).
      split; [reflexivity|]. split; [auto|].
      destruct (direct_api_shape temp_path) as [->|[->|[-> Hresp]]];
        repeat split; auto; try discriminate; congruence.
Qed.

(** X3. [speech_to_text] contacts the provider in a fixed order: at most one
    SDK [convert], then at most two uploads.  No upload follows a [convert]
    that returned, and the second upload is sent only after the first was
    answered with a status other than 200. *)
Theorem speech_to_text_call_sequence :
  exists sdk posts,
    log_of (speech_to_text w self audio_data model_id language) = sdk ++ posts
    /\ (sdk = [] \/ sdk = [SttConvert audio_data (elevenlabs_model model_id)])
    /\ (posts = []
        \/ posts = [Post (first_request self audio_data)]
        \/ posts = [Post (first_request self audio_data);
                    Post (second_request self audio_data model_id language)])
    /\ (forall c result,
          client self = Some c ->
          sdk <> [] ->
          sdk_speech_to_text_convert w c audio_data (elevenlabs_model model_id)
            = Ok result ->
          posts = [])
    /\ (length posts = 2%nat ->
        exists response,
          http_post w (first_request self audio_data) = Ok response
          /\ httpx.status_code response <> 200%Z).
Proof. exact speech_to_text_log_cases. Qed.

Lemma speech_to_text_converts (a : bytes) (m : option string) :
  In (SttConvert a m)
     (log_of (speech_to_text w self audio_data model_id language)) ->
  a = audio_data /\ m = elevenlabs_model model_id.
Proof.
  destruct speech_to_text_log_cases as (sdk & posts & -> & Hsdk & Hposts & _).
  intros [H|H]%in_app_or.
  - destruct Hsdk as [->| ->]; [destruct H|].
    destruct H as [[= <- <-]|[]]. auto.
  - destruct Hposts as [->|[->| ->]]; cbn in H; intuition discriminate.
Qed.

Lemma elevenlabs_model_never_whisper (m : option string) :
  elevenlabs_model m <> None
  /\ elevenlabs_model m <> Some ""
  /\ elevenlabs_model m <> Some "whisper-1".
Proof.
  rewrite elevenlabs_model_rewritten. unfold stt.rewritten_model.
  destruct m as [s|]; [|repeat split; discriminate].
  destruct (String.eqb_spec s "") as [->|Hne]; cbn [orb];
    [repeat split; discriminate|].
  destruct (String.eqb_spec s "whisper-1") as [->|Hnw];
    repeat split; congruence.
Qed.

(** X4. Every upload goes to the provider's speech-to-text URL, carries the
    adapter's key in the [xi-api-key] header and the caller's audio, unchanged,
    as the file ["audio.wav"] of type ["audio/wav"]. *)
Theorem uploads_carry_key_and_audio (req : httpx.Request) :
  In (Post req) (log_of (speech_to_text w self audio_data model_id language)) ->
  httpx.url req = "https://api.elevenlabs.io/v1/speech-to-text"
  /\ httpx.headers req !! "xi-api-key" = Some (api_key self)
  /\ httpx.files req !! "file" = Some ("audio.wav", audio_data, "audio/wav").
Proof.
  intros [->| ->]%speech_to_text_log; repeat split.
Qed.

(** X5. The form data of the second upload holds [language] exactly when the
    caller supplied a non-empty one, and nothing besides [model_id] and
    [language]. *)
Theorem second_upload_form_data (req : httpx.Request)
    (d : gmap string (option string)) :
  In (Post req) (log_of (speech_to_text w self audio_data model_id language)) ->
  httpx.data req = Some d ->
  d !! "language" = (if str_truthy language then Some language else None)
  /\ forall k, k <> "model_id" -> k <> "language" -> d !! k = None.
Proof.
  intros [->| ->]%speech_to_text_log; [discriminate|].
  cbn. intros [= <-]. destruct (str_truthy language).
  - split; [reflexivity|]. intros k Hm Hl.
    rewrite lookup_insert_ne, lookup_singleton_ne by congruence. reflexivity.
  - split; [reflexivity|]. intros k Hm Hl.
    now rewrite lookup_singleton_ne by congruence.
Qed.

(** X6. The name ["whisper-1"] and the empty name never reach the
    provider.  The SDK's [convert] is given the caller's audio and the
    rewritten model name, which is never missing, empty or ["whisper-1"].
    Of the uploads, the first carries no form data and so names no model at
    all; the second names a model that is neither empty nor ["whisper-1"]. *)
Theorem provider_never_receives_whisper :
  (forall a m,
     In (SttConvert a m)
        (log_of (speech_to_text w self audio_data model_id language)) ->
     a = audio_data
     /\ m = stt.rewritten_model model_id
     /\ m <> None /\ m <> Some "" /\ m <> Some "whisper-1")
  /\ (forall req,
        In (Post req)
           (log_of (speech_to_text w self audio_data model_id language)) ->
        (req = first_request self audio_data /\ httpx.data req = None)
        \/ (req = second_request self audio_data model_id language
            /\ exists d m,
                 httpx.data req = Some d
                 /\ d !! "model_id" = Some (Some m)
                 /\ m <> "" /\ m <> "whisper-1")).
Proof.
  pose proof (elevenlabs_model_never_whisper model_id) as (Hn & He & Hw).
  split.
  - intros a m [-> ->]%speech_to_text_converts.
    rewrite <- elevenlabs_model_rewritten. auto.
  - intros req [->| ->]%speech_to_text_log; [left; split; reflexivity|].
    right. split; [reflexivity|].
    destruct (elevenlabs_model model_id) as [m|] eqn:Hm; [|done].
    eexists _, m. split; [reflexivity|]. split.
    + rewrite Hm.
      destruct (str_truthy language); [|now rewrite lookup_singleton_eq].
      now rewrite lookup_insert_ne, lookup_singleton_eq.
    + split; congruence.
Qed.

End SpeechToTextCalls.

Section SpeechToTextCallsWitnesses.

Import elevenlabs_client.

Lemma uploads_carry_key_and_audio_witness :
  httpx.url (first_request scenario.connected [x52; x49; x46; x46])
    = "https://api.elevenlabs.io/v1/speech-to-text"
  /\ httpx.headers (first_request scenario.connected [x52; x49; x46; x46])
       !! "xi-api-key" = Some "sk_test"
  /\ httpx.files (first_request scenario.connected [x52; x49; x46; x46])
       !! "file" = Some ("audio.wav", [x52; x49; x46; x46], "audio/wav").
Proof.
  apply (uploads_carry_key_and_audio (scenario.offline scenario.no_env)
           scenario.connected [x52; x49; x46; x46] (Some "whisper-1") None
           (first_request scenario.connected [x52; x49; x46; x46])).
  left. reflexivity.
Defined.

Lemma second_upload_form_data_witness :
  ({[ "model_id" := Some "scribe_v1" ]} : gmap string (option string))
    !! "language" = None
  /\ forall k, k <> "model_id" -> k <> "language" ->
       ({[ "model_id" := Some "scribe_v1" ]} : gmap string (option string))
         !! k = None.
Proof.
  apply (second_upload_form_data (scenario.offline scenario.no_env)
           scenario.connected [x52; x49; x46; x46] (Some "whisper-1") (Some "")
           (second_request scenario.connected [x52; x49; x46; x46]
              (Some "whisper-1") (Some ""))).
  - right; left; reflexivity.
  - reflexivity.
Defined.

Lemma provider_never_receives_whisper_witness :
  exists d m,
    httpx.data (second_request scenario.connected [x52; x49; x46; x46]
                  (Some "whisper-1") None) = Some d
    /\ d !! "model_id" = Some (Some m)
    /\ m <> "" /\ m <> "whisper-1".
Proof.
  destruct (proj2 (provider_never_receives_whisper
                     (scenario.offline scenario.no_env) scenario.connected
                     [x52; x49; x46; x46] (Some "whisper-1") None)
              (second_request scenario.connected [x52; x49; x46; x46]
                 (Some "whisper-1") None)
              (or_intror (or_introl eq_refl)))
    as [[Hfirst _]|[_ Hsecond]].
  - discriminate Hfirst.
  - exact Hsecond.
Defined.

End SpeechToTextCallsWitnesses.

(** * What speech-to-text does with local failures *)

Section SpeechToTextEdges.

Import elevenlabs_client.

Variables (w : World) (self : ElevenLabsClient) (audio_data : bytes)
          (model_id language : option string).

(** X7. A transcript is handed back unchanged exactly when its [text] can be
    sliced (a string, or a list): the log line that slices it sits inside the
    [try], so a transcript whose text is [None], a number, a boolean or a
    dict is dropped and the fallback record returned in its place. *)
Theorem transcript_kept_iff_text_sliceable (r : transcript) :
  is_connected self = true ->
  outcome (_transcribe_audio w self audio_data model_id language) = Ok r ->
  outcome (speech_to_text w self audio_data model_id language) =
    Ok match text r with
       | PyStr _ | PyList _ => r
       | _ => fallback language
       end.
Proof.
  intros Hconn Hr. unfold speech_to_text. rewrite Hconn. cbn [negb].
  rewrite outcome_try_except, outcome_bind, Hr, outcome_bind, outcome_lift.
  now destruct (text r).
Qed.

(** X8. When the temporary file cannot be created the fallback record is
    returned and the provider is never contacted; when it cannot be deleted
    the fallback record is returned whatever the provider answered. *)
Theorem temp_file_failure_gives_fallback :
  is_connected self = true ->
  (forall e,
     fs_write_temp w audio_data = Raise e ->
     speech_to_text w self audio_data model_id language
       = ([], Ok (fallback language)))
  /\ (forall temp_path e,
        fs_write_temp w audio_data = Ok temp_path ->
        fs_unlink w temp_path = Raise e ->
        outcome (speech_to_text w self audio_data model_id language)
          = Ok (fallback language)).
Proof.
  intros Hconn. split.
  - intros e He. unfold speech_to_text, _transcribe_audio.
    rewrite Hconn, He. reflexivity.
  - intros temp_path e Hp He. unfold speech_to_text. rewrite Hconn. cbn [negb].
    rewrite outcome_try_except, outcome_bind.
    unfold _transcribe_audio at 1.
    rewrite outcome_bind, outcome_lift, Hp, outcome_try_finally, outcome_lift, He.
    reflexivity.
Qed.

End SpeechToTextEdges.

Section SpeechToTextEdgesWitnesses.

Import elevenlabs_client.

Lemma transcript_kept_iff_text_sliceable_witness :
  outcome (speech_to_text scenario.null_transcript scenario.connected
             [x52; x49; x46; x46] (Some "whisper-1") (Some "de"))
    = Ok (fallback (Some "de")).
Proof.
  apply (transcript_kept_iff_text_sliceable scenario.null_transcript
           scenario.connected [x52; x49; x46; x46] (Some "whisper-1") (Some "de")
           {| text := PyNone; confidence := PyFloat 0.99; language := "de" |}).
  - reflexivity.
  - reflexivity.
Defined.

Lemma temp_file_failure_gives_fallback_witness :
  speech_to_text scenario.disk_full scenario.connected [x52; x49; x46; x46]
    (Some "whisper-1") None
    = ([], Ok (fallback None)).
Proof.
  apply (proj1 (temp_file_failure_gives_fallback scenario.disk_full
                  scenario.connected [x52; x49; x46; x46] (Some "whisper-1")
                  None eq_refl)
           (PyExn "OSError" "[Errno 28] No space left on device")).
  reflexivity.
Defined.

End SpeechToTextEdgesWitnesses.

(** * Further properties of text-to-speech *)

Section TextToSpeechFacade.

Import elevenlabs_client.

(** What a connected adapter returns: the chunks in order, or the exception
    of the SDK (of its settings constructor or of [generate]), unchanged. *)
Lemma text_to_speech_outcome (w : World) (self : ElevenLabsClient)
    (text voice_id : string) (model_id : option string)
    (voice_settings : option (gmap string float)) :
  is_connected self = true ->
  exists c,
    client self = Some c
    /\ outcome (text_to_speech w self text voice_id model_id voice_settings) =
         match tts.built_settings w voice_settings with
         | Ok settings =>
             match sdk_generate w c text
                     {| voice_id := voice_id; settings := settings |}
                     model_id with
             | Ok chunks => Ok (concat chunks)
             | Raise e => Raise e
             end
         | Raise e => Raise e
         end.
Proof.
  intros Hconn. destruct (is_connected_client _ Hconn) as [c Hc].
  exists c. split; [exact Hc|].
  unfold text_to_speech, _generate_speech. rewrite Hconn, Hc. cbn [negb].
  rewrite make_settings_built, outcome_try_except, outcome_bind, outcome_lift.
  destruct (tts.built_settings w voice_settings) as [settings|e];
    [|reflexivity].
  rewrite outcome_bind. cbn [call outcome snd].
  now destruct (sdk_generate w c _ _ _).
Qed.

Lemma facade_text_to_speech_log (w : World) (c : ElevenLabsClient)
    (request : main.TTSRequest.t) (t_before t_after : float) (stamp : string) :
  fst (main.text_to_speech w (Some c) request t_before t_after stamp) =
    log_of (text_to_speech w c (main.TTSRequest.text request)
              (str_or (main.TTSRequest.voice_id request)
                 (default "21m00Tcm4TlvDq8ikWAM"
                    (getenv w "ELEVENLABS_VOICE_ID")))
              (main.TTSRequest.model_id request)
              (main.TTSRequest.voice_settings request)).
Proof.
  unfold main.text_to_speech, main.guard_500.
  destruct (text_to_speech _ _ _ _ _ _) as [l [payload|e]]; cbn; [|reflexivity].
  destruct (main.TTSRequest.model_id request); cbn; now rewrite app_nil_r.
Qed.

(** X9. Keys of [voice_settings] other than the four known ones have no
    effect on what the provider is given. *)
Theorem settings_ignore_other_keys (w : World) (d : gmap string float)
    (k : string) (x : float) :
  k <> "stability" -> k <> "similarity_boost" -> k <> "style" ->
  k <> "use_speaker_boost" ->
  make_settings w (Some (<[ k := x ]> d)) = make_settings w (Some d).
Proof.
  intros H1 H2 H3 H4. rewrite !make_settings_built.
  unfold tts.built_settings, tts.supplied_or.
  now rewrite !lookup_insert_ne by congruence.
Qed.

(** X10. A successful [/tts] response echoes exactly what the provider was
    called with: one [generate] call, for the request's text, with the
    [voice_id] and [model_id] of the response and the settings object the
    SDK built from the request's [voice_settings]; [audio_data] encodes the
    chunks the provider yielded, in order, and [size] is the sum of their
    lengths. *)
Theorem tts_response_echoes_provider_call (w : World)
    (elevenlabs_client : option ElevenLabsClient) (request : main.TTSRequest.t)
    (t_before t_after : float) (stamp : string) (body : main.TTSResponse.t) :
  snd (main.text_to_speech w elevenlabs_client request t_before t_after stamp)
    = main.Response body ->
  exists c chunks built,
    let voice :=
      {| voice_id := main.TTSResponse.voice_id body; settings := built |} in
    let model := Some (main.TTSResponse.model_id body) in
    tts.built_settings w (main.TTSRequest.voice_settings request) = Ok built
    /\ fst (main.text_to_speech w elevenlabs_client request t_before t_after
              stamp)
       = [Generate (main.TTSRequest.text request) voice model]
    /\ sdk_generate w c (main.TTSRequest.text request) voice model = Ok chunks
    /\ main.TTSResponse.audio_data body = Base64.b64encode (concat chunks)
    /\ main.TTSResponse.size body = Z.of_nat (list_sum (map length chunks))
    /\ main.TTSResponse.duration body = PrimFloat.sub t_after t_before
    /\ main.TTSResponse.generated_at body = stamp.
Proof.
  destruct elevenlabs_client as [self|]; [|discriminate].
  rewrite facade_text_to_speech_log. unfold main.text_to_speech.
  rewrite guard_500_result, outcome_bind.
  destruct (is_connected self) eqn:Hconn.
  2: { rewrite text_to_speech_disconnected by assumption. discriminate. }
  rewrite text_to_speech_log by assumption.
  destruct (text_to_speech_outcome w self (main.TTSRequest.text request)
              (str_or (main.TTSRequest.voice_id request)
                 (default "21m00Tcm4TlvDq8ikWAM" (getenv w "ELEVENLABS_VOICE_ID")))
              (main.TTSRequest.model_id request)
              (main.TTSRequest.voice_settings request) Hconn)
    as (c & Hc & ->).
  destruct (tts.built_settings w _) as [built|e] eqn:Hbuilt; [|discriminate].
  destruct (sdk_generate w c _ _ _) as [chunks|e] eqn:Hgen; [|discriminate].
  rewrite outcome_bind, outcome_lift.
  destruct (main.TTSRequest.model_id request) as [m|]; [|discriminate].
  cbn. intros [= <-]. exists c, chunks, built. cbn.
  rewrite length_concat. auto 10.
Qed.

(** X11. A [/tts] request whose [model_id] is [null] is never answered with
    200 by an initialised facade.  When the adapter is connected and the SDK
    accepts the voice settings the provider is still called, and whatever it
    yields is discarded because the response model requires a string. *)
Theorem tts_null_model_is_500 (w : World) (self : ElevenLabsClient)
    (request : main.TTSRequest.t) (t_before t_after : float) (stamp : string) :
  main.TTSRequest.model_id request = None ->
  main.status_of
    (snd (main.text_to_speech w (Some self) request t_before t_after stamp))
    = 500%Z
  /\ (is_connected self = true ->
      forall built,
        tts.built_settings w (main.TTSRequest.voice_settings request)
          = Ok built ->
        exists voice,
          settings voice = built
          /\ fst (main.text_to_speech w (Some self) request t_before t_after
                    stamp)
             = [Generate (main.TTSRequest.text request) voice None]).
Proof.
  intros Hm. split.
  - unfold main.text_to_speech. rewrite guard_500_result, outcome_bind, Hm.
    destruct (outcome (text_to_speech _ _ _ _ _ _)); reflexivity.
  - intros Hconn built Hb. rewrite facade_text_to_speech_log, Hm.
    rewrite text_to_speech_log, Hb by assumption.
    eexists. split; [|reflexivity]. reflexivity.
Qed.

(** X12. Whenever [/tts] calls the provider, it asks for the request's text
    and model, and for the voice that is the request's [voice_id] when it is
    supplied and not empty, else the value of [ELEVENLABS_VOICE_ID] when that
    variable is set (even to the empty string), else
    ["21m00Tcm4TlvDq8ikWAM"]. *)
Theorem tts_voice_resolution (w : World) (self : ElevenLabsClient)
    (request : main.TTSRequest.t) (t_before t_after : float) (stamp : string)
    (txt : string) (voice : Voice) (model : option string) :
  In (Generate txt voice model)
     (fst (main.text_to_speech w (Some self) request t_before t_after stamp)) ->
  txt = main.TTSRequest.text request
  /\ model = main.TTSRequest.model_id request
  /\ voice_id voice =
       let configured :=
         match getenv w "ELEVENLABS_VOICE_ID" with
         | Some v => v
         | None => "21m00Tcm4TlvDq8ikWAM"
         end in
       match main.TTSRequest.voice_id request with
       | Some v => if String.eqb v "" then configured else v
       | None => configured
       end.
Proof.
  rewrite facade_text_to_speech_log.
  destruct (is_connected self) eqn:Hconn.
  2: { rewrite text_to_speech_disconnected by assumption. intros []. }
  rewrite text_to_speech_log by assumption.
  destruct (tts.built_settings w _) as [built|e]; [|intros []].
  intros [[= <- <- <-]|[]]. split; [reflexivity|]. split; [reflexivity|].
  cbn. unfold str_or.
  destruct (main.TTSRequest.voice_id request) as [v|];
    destruct (getenv w "ELEVENLABS_VOICE_ID"); reflexivity.
Qed.

End TextToSpeechFacade.

Section TextToSpeechFacadeWitnesses.

Import elevenlabs_client.

Lemma settings_ignore_other_keys_witness :
  make_settings (scenario.online scenario.no_env)
    (Some (<[ "speed" := 1.5%float ]> {[ "style" := 0.2%float ]}))
  = make_settings (scenario.online scenario.no_env)
      (Some {[ "style" := 0.2%float ]}).
Proof.
  apply (settings_ignore_other_keys (scenario.online scenario.no_env)
           {[ "style" := 0.2%float ]} "speed" 1.5%float); discriminate.
Defined.

Lemma tts_response_echoes_provider_call_witness :
  exists built : VoiceSettings,
    use_speaker_boost built = PyBool true
    /\ fst (main.text_to_speech (scenario.online scenario.no_env)
              (Some scenario.connected)
              {| main.TTSRequest.text := "Hello";
                 main.TTSRequest.voice_id := Some "EXAVITQu4vr4xnSDxMaL";
                 main.TTSRequest.model_id := Some "eleven_multilingual_v2";
                 main.TTSRequest.voice_settings :=
                   Some {[ "use_speaker_boost" := 1%float ]} |}
              10%float 11%float "2025-01-01 00:00:00")
       = [Generate "Hello"
            {| voice_id := "EXAVITQu4vr4xnSDxMaL"; settings := built |}
            (Some "eleven_multilingual_v2")].
Proof.
  assert (snd (main.text_to_speech (scenario.online scenario.no_env)
                 (Some scenario.connected)
                 {| main.TTSRequest.text := "Hello";
                    main.TTSRequest.voice_id := Some "EXAVITQu4vr4xnSDxMaL";
                    main.TTSRequest.model_id := Some "eleven_multilingual_v2";
                    main.TTSRequest.voice_settings :=
                      Some {[ "use_speaker_boost" := 1%float ]} |}
                 10%float 11%float "2025-01-01 00:00:00")
          = main.Response
              {| main.TTSResponse.audio_data := "SUQzBAA=";
                 main.TTSResponse.voice_id := "EXAVITQu4vr4xnSDxMaL";
                 main.TTSResponse.model_id := "eleven_multilingual_v2";
                 main.TTSResponse.duration := 1%float;
                 main.TTSResponse.size := 5;
                 main.TTSResponse.generated_at := "2025-01-01 00:00:00" |})
    as Hresponse by (vm_compute; reflexivity).
  destruct (tts_response_echoes_provider_call
              (scenario.online scenario.no_env) (Some scenario.connected)
              {| main.TTSRequest.text := "Hello";
                 main.TTSRequest.voice_id := Some "EXAVITQu4vr4xnSDxMaL";
                 main.TTSRequest.model_id := Some "eleven_multilingual_v2";
                 main.TTSRequest.voice_settings :=
                   Some {[ "use_speaker_boost" := 1%float ]} |}
              10%float 11%float "2025-01-01 00:00:00"
              _ Hresponse)
    as (c & chunks & built & Hbuilt & Hlog & _).
  exists built. split; [|exact Hlog].
  injection Hbuilt as <-. reflexivity.
Defined.

Lemma tts_null_model_is_500_witness :
  main.status_of
    (snd (main.text_to_speech (scenario.online scenario.no_env)
            (Some scenario.connected)
            {| main.TTSRequest.text := "Hello";
               main.TTSRequest.voice_id := None;
               main.TTSRequest.model_id := None;
               main.TTSRequest.voice_settings := None |}
            10%float 11%float "2025-01-01 00:00:00"))
    = 500%Z.
Proof.
  apply (tts_null_model_is_500 (scenario.online scenario.no_env)
           scenario.connected
           {| main.TTSRequest.text := "Hello";
              main.TTSRequest.voice_id := None;
              main.TTSRequest.model_id := None;
              main.TTSRequest.voice_settings := None |}
           10%float 11%float "2025-01-01 00:00:00" eq_refl).
Defined.

Lemma tts_voice_resolution_witness :
  "Hello" = "Hello"
  /\ Some "eleven_monolingual_v1" = Some "eleven_monolingual_v1"
  /\ "21m00Tcm4TlvDq8ikWAM" = "21m00Tcm4TlvDq8ikWAM".
Proof.
  apply (tts_voice_resolution (scenario.online scenario.no_env)
           scenario.connected
           {| main.TTSRequest.text := "Hello";
              main.TTSRequest.voice_id := Some "";
              main.TTSRequest.model_id := Some "eleven_monolingual_v1";
              main.TTSRequest.voice_settings := None |}
           10%float 11%float "2025-01-01 00:00:00"
           "Hello"
           {| voice_id := "21m00Tcm4TlvDq8ikWAM";
              settings := {| stability := PyFloat 0.5;
                             similarity_boost := PyFloat 0.75;
                             style := PyFloat 0.0;
                             use_speaker_boost := PyBool true |} |}
           (Some "eleven_monolingual_v1")).
  left. reflexivity.
Defined.

End TextToSpeechFacadeWitnesses.

(** * Sizes of the base64 text *)

Section Base64Sizes.

Import Base64.

Lemma length_b2a_base64 (n : nat) :
  forall bs : bytes,
    length bs < n ->
    String.length (b2a_base64 bs) = 4 * ((length bs + 2) / 3).
Proof.
  induction n as [|n IH]; intros bs Hlen; [lia|].
  destruct bs as [|a [|b [|c rest]]]; try reflexivity.
  cbn [b2a_base64 String.length length]. rewrite IH by (cbn in Hlen; lia).
  replace (S (S (S (length rest))) + 2) with (length rest + 2 + 1 * 3) by lia.
  rewrite Nat.div_add by lia. lia.
Qed.

(** The decoder never produces more than three bytes per four characters. *)
Lemma a2b_base64_loop_bound (s : string) :
  forall (quad_pos leftchar pads : N) (out res : bytes),
    a2b_base64_loop s quad_pos leftchar pads out = Ok res ->
    4 * length res
    <= 4 * length out + 3 * String.length s
       + (if (quad_pos =? 1)%N then 3
          else if (quad_pos =? 2)%N then 2
          else if (quad_pos =? 0)%N then 0 else 1).
Proof.
  induction s as [|ch s IH]; intros quad_pos leftchar pads out res.
  - cbn [a2b_base64_loop].
    destruct (quad_pos =? 0)%N eqn:H0.
    + intros [= <-]. rewrite length_rev. lia.
    + destruct (quad_pos =? 1)%N; discriminate.
  - cbn [a2b_base64_loop String.length].
    destruct (Ascii.eqb ch BASE64_PAD).
    + destruct ((2 <=? quad_pos)%N && (4 <=? quad_pos + (pads + 1))%N).
      * intros [= <-]. rewrite length_rev. lia.
      * intros H%IH. lia.
    + destruct (table_a2b_base64 ch) as [v|].
      * destruct (quad_pos =? 0)%N eqn:H0.
        { apply N.eqb_eq in H0. subst. intros H%IH. cbn in H. cbn. lia. }
        destruct (quad_pos =? 1)%N eqn:H1.
        { intros H%IH. cbn in H. cbn [length] in H. lia. }
        destruct (quad_pos =? 2)%N eqn:H2.
        { intros H%IH. cbn in H. cbn [length] in H. lia. }
        intros H%IH. cbn in H. cbn [length] in H. lia.
      * intros H%IH. lia.
Qed.

End Base64Sizes.

(** * Foreign characters in base64 text *)

Section Base64Lenient.

Import Base64.

Lemma append_empty (s : string) : "" +:+ s = s.
Proof. reflexivity. Qed.

Lemma append_String (ch : ascii) (s1 s2 : string) :
  String ch s1 +:+ s2 = String ch (s1 +:+ s2).
Proof. reflexivity. Qed.

Lemma a2b_base64_loop_skip (c : ascii) (s2 : string) :
  Ascii.eqb c BASE64_PAD = false ->
  table_a2b_base64 c = None ->
  forall (s1 : string) (quad_pos leftchar pads : N) (out : bytes),
    a2b_base64_loop (s1 +:+ String c s2) quad_pos leftchar pads out
    = a2b_base64_loop (s1 +:+ s2) quad_pos leftchar pads out.
Proof.
  intros Hpad Htab. induction s1 as [|ch s1 IH]; intros quad_pos leftchar pads out.
  - rewrite !append_empty. cbn [a2b_base64_loop]. now rewrite Hpad, Htab.
  - rewrite !append_String. cbn [a2b_base64_loop].
    destruct (Ascii.eqb ch _).
    + destruct ((2 <=? quad_pos)%N && (4 <=? quad_pos + (pads + 1))%N);
        [reflexivity|apply IH].
    + destruct (table_a2b_base64 ch) as [v|]; [|apply IH].
      destruct (quad_pos =? 0)%N; [apply IH|].
      destruct (quad_pos =? 1)%N; [apply IH|].
      destruct (quad_pos =? 2)%N; apply IH.
Qed.

Lemma is_ascii_skip (c : ascii) (s1 s2 : string) :
  (N_of_ascii c <? 128)%N = true ->
  is_ascii (s1 +:+ String c s2) = is_ascii (s1 +:+ s2).
Proof.
  intros Hc. induction s1 as [|ch s1 IH].
  - rewrite !append_empty. cbn [is_ascii]. now rewrite Hc.
  - rewrite !append_String. cbn [is_ascii]. now rewrite IH.
Qed.

Lemma b64decode_skip (c : ascii) (s1 s2 : string) :
  (N_of_ascii c <? 128)%N = true ->
  Ascii.eqb c BASE64_PAD = false ->
  table_a2b_base64 c = None ->
  b64decode (s1 +:+ String c s2) = b64decode (s1 +:+ s2).
Proof.
  intros Hc Hpad Htab. unfold b64decode, a2b_base64.
  now rewrite is_ascii_skip, a2b_base64_loop_skip.
Qed.

End Base64Lenient.

(** * Further properties of the speech-to-text endpoints *)

Section SpeechToTextFacade.

Import elevenlabs_client.

Lemma bind_lift_ok {A B : Type} (a : A) (f : A -> M B) :
  lift (Ok a) ≫= f = f a.
Proof. cbn. now destruct (f a). Qed.

Lemma speech_to_text_total_failure (w : World) (self : ElevenLabsClient)
    (audio_data : bytes) (model_id language : option string) :
  is_connected self = true ->
  stt.sdk_path_fails w self audio_data model_id ->
  stt.rest_path_fails w self audio_data model_id language ->
  outcome (speech_to_text w self audio_data model_id language)
    = Ok (fallback language).
Proof.
  intros Hconn Hsdk Hrest.
  destruct (speech_to_text_returns w self audio_data model_id language Hconn)
    as (r & Hr & [->|Hok]); [exact Hr|].
  destruct (transcribe_fails w self audio_data model_id language Hsdk Hrest)
    as [e He].
  congruence.
Qed.

Lemma facade_speech_to_text_log (w : World) (c : ElevenLabsClient)
    (request : main.STTRequest.t) (t_before t_after : float) :
  fst (main.speech_to_text w (Some c) request t_before t_after) =
    match Base64.b64decode (main.STTRequest.audio_data request) with
    | Ok audio =>
        log_of (speech_to_text w c audio (main.STTRequest.model_id request)
                  (main.STTRequest.language request))
    | Raise _ => []
    end.
Proof.
  unfold main.speech_to_text.
  destruct (Base64.b64decode _) as [audio|e]; [|reflexivity].
  rewrite bind_lift_ok. unfold main.guard_500.
  destruct (speech_to_text w c audio _ _) as [l [r|e]]; cbn; [|reflexivity].
  destruct (validate_str w (text r)); cbn; [|now rewrite app_nil_r].
  destruct (validate_float w (confidence r)); cbn; now rewrite app_nil_r.
Qed.

(** X13. The facade passes the provider's outage on as a success: with a
    connected adapter and decodable audio, when the SDK path yields nothing
    and no upload is answered with 200, [/stt] answers 200 with the fallback
    sentence and confidence 0.80 (pydantic accepting a string as a string and
    a float as a float). *)
Theorem stt_outage_is_answered_200 (w : World) (self : ElevenLabsClient)
    (request : main.STTRequest.t) (t_before t_after : float) (audio : bytes) :
  is_connected self = true ->
  Base64.b64decode (main.STTRequest.audio_data request) = Ok audio ->
  stt.sdk_path_fails w self audio (main.STTRequest.model_id request) ->
  stt.rest_path_fails w self audio (main.STTRequest.model_id request)
    (main.STTRequest.language request) ->
  validate_str w (PyStr fallback_text) = Ok fallback_text ->
  validate_float w (PyFloat 0.80) = Ok 0.80%float ->
  snd (main.speech_to_text w (Some self) request t_before t_after) =
    main.Response
      {| main.STTResponse.text := fallback_text;
         main.STTResponse.confidence := 0.80;
         main.STTResponse.language :=
           str_or (main.STTRequest.language request) "en";
         main.STTResponse.processing_time := PrimFloat.sub t_after t_before;
         main.STTResponse.model_id :=
           str_or (main.STTRequest.model_id request) "whisper-1" |}.
Proof.
  intros Hconn Haudio Hsdk Hrest Hstr Hfloat. unfold main.speech_to_text.
  rewrite guard_500_result, Haudio, bind_lift_ok, outcome_bind.
  rewrite (speech_to_text_total_failure _ _ _ _ _ Hconn Hsdk Hrest).
  rewrite outcome_bind, outcome_lift. cbn [text fallback].
  rewrite Hstr, outcome_bind, outcome_lift. cbn [confidence fallback].
  rewrite Hfloat. reflexivity.
Qed.

(** X14. Every 200 response of [/stt] reports the caller's language (or
    ["en"]) and echoes the caller's model name (or ["whisper-1"]), not the
    name the provider was given. *)
Theorem stt_response_echoes_request (w : World)
    (elevenlabs_client : option ElevenLabsClient) (request : main.STTRequest.t)
    (t_before t_after : float) (body : main.STTResponse.t) :
  snd (main.speech_to_text w elevenlabs_client request t_before t_after)
    = main.Response body ->
  main.STTResponse.language body = str_or (main.STTRequest.language request) "en"
  /\ main.STTResponse.model_id body
     = str_or (main.STTRequest.model_id request) "whisper-1"
  /\ main.STTResponse.processing_time body = PrimFloat.sub t_after t_before.
Proof.
  unfold main.speech_to_text.
  destruct elevenlabs_client as [c|]; [|discriminate].
  rewrite guard_500_result, outcome_bind, outcome_lift.
  destruct (Base64.b64decode _) as [audio|e]; [|discriminate].
  rewrite outcome_bind.
  destruct (outcome (speech_to_text w c audio _ _)) as [r|e] eqn:Hr;
    [|discriminate].
  apply speech_to_text_language in Hr.
  rewrite outcome_bind, outcome_lift.
  destruct (validate_str w (text r)); [|discriminate].
  rewrite outcome_bind, outcome_lift.
  destruct (validate_float w (confidence r)); [|discriminate].
  cbn. intros [= <-]. cbn. auto.
Qed.

(** X15. Uploading a file to [/stt-file] is the same as posting its base64
    text to [/stt]: same provider calls, same response, for every model name
    but the empty one (which [/stt-file] echoes and [/stt] reports as
    ["whisper-1"]). *)
Theorem stt_file_agrees_with_stt (w : World)
    (elevenlabs_client : option ElevenLabsClient) (file : bytes)
    (model_id : string) (language : option string) (t_before t_after : float) :
  model_id <> "" ->
  main.speech_to_text_file w elevenlabs_client file model_id language
    t_before t_after
  = main.speech_to_text w elevenlabs_client
      {| main.STTRequest.audio_data := Base64.b64encode file;
         main.STTRequest.model_id := Some model_id;
         main.STTRequest.language := language |}
      t_before t_after.
Proof.
  intros Hm. unfold main.speech_to_text_file, main.speech_to_text.
  destruct elevenlabs_client as [c|]; [|reflexivity].
  cbn [main.STTRequest.audio_data main.STTRequest.model_id
       main.STTRequest.language].
  rewrite b64decode_b64encode, bind_lift_ok. unfold str_or.
  destruct (String.eqb_spec model_id ""); [contradiction|reflexivity].
Qed.

(** X16. [/stt] ignores ASCII characters outside the base64 alphabet (line
    breaks, blanks, punctuation) in [audio_data]: the request with such a
    character and the request without it get the same provider calls and the
    same response. *)
Theorem stt_ignores_foreign_characters (w : World)
    (elevenlabs_client : option ElevenLabsClient) (c : ascii) (s1 s2 : string)
    (model_id language : option string) (t_before t_after : float) :
  (N_of_ascii c < 128)%N ->
  c <> "="%char ->
  Base64.table_a2b_base64 c = None ->
  main.speech_to_text w elevenlabs_client
    {| main.STTRequest.audio_data := s1 +:+ String c s2;
       main.STTRequest.model_id := model_id;
       main.STTRequest.language := language |} t_before t_after
  = main.speech_to_text w elevenlabs_client
      {| main.STTRequest.audio_data := s1 +:+ s2;
         main.STTRequest.model_id := model_id;
         main.STTRequest.language := language |} t_before t_after.
Proof.
  intros Hc Hpad Htab. unfold main.speech_to_text.
  cbn [main.STTRequest.audio_data main.STTRequest.model_id
       main.STTRequest.language].
  rewrite b64decode_skip; [reflexivity| | |assumption].
  - now apply N.ltb_lt.
  - now apply Ascii.eqb_neq.
Qed.

(** X17. The audio that [/stt] hands to the SDK is the decoding of the
    request's [audio_data], and it is never longer than three quarters of
    that text. *)
Theorem stt_audio_is_bounded (w : World) (self : ElevenLabsClient)
    (request : main.STTRequest.t) (t_before t_after : float)
    (a : bytes) (m : option string) :
  In (SttConvert a m)
     (fst (main.speech_to_text w (Some self) request t_before t_after)) ->
  Base64.b64decode (main.STTRequest.audio_data request) = Ok a
  /\ 4 * length a <= 3 * String.length (main.STTRequest.audio_data request).
Proof.
  rewrite facade_speech_to_text_log.
  destruct (Base64.b64decode _) as [audio|e] eqn:Hdec; [|intros []].
  intros [-> _]%speech_to_text_converts. split; [reflexivity|].
  unfold Base64.b64decode, Base64.a2b_base64 in Hdec.
  destruct (Base64.is_ascii _); [|discriminate].
  apply a2b_base64_loop_bound in Hdec. cbn in Hdec. lia.
Qed.

End SpeechToTextFacade.

Section SpeechToTextFacadeWitnesses.

Import elevenlabs_client.

Lemma stt_outage_is_answered_200_witness :
  snd (main.speech_to_text (scenario.offline scenario.no_env)
         (Some scenario.connected)
         {| main.STTRequest.audio_data := "UklGRg==";
            main.STTRequest.model_id := None;
            main.STTRequest.language := Some "fr" |} 10%float 11%float)
  = main.Response
      {| main.STTResponse.text := fallback_text;
         main.STTResponse.confidence := 0.80;
         main.STTResponse.language := "fr";
         main.STTResponse.processing_time := 1;
         main.STTResponse.model_id := "whisper-1" |}.
Proof.
  apply (stt_outage_is_answered_200 (scenario.offline scenario.no_env)
           scenario.connected
           {| main.STTRequest.audio_data := "UklGRg==";
              main.STTRequest.model_id := None;
              main.STTRequest.language := Some "fr" |} 10%float 11%float
           [x52; x49; x46; x46]).
  - reflexivity.
  - reflexivity.
  - intros c _ Hhas. discriminate Hhas.
  - intros req _. cbn. discriminate.
  - reflexivity.
  - reflexivity.
Defined.

Lemma stt_response_echoes_request_witness :
  "en" = str_or None "en"
  /\ "scribe_v2" = str_or (Some "scribe_v2") "whisper-1"
  /\ 1%float = PrimFloat.sub 11 10.
Proof.
  apply (stt_response_echoes_request (scenario.online scenario.no_env)
           (Some scenario.connected)
           {| main.STTRequest.audio_data := "UklGRg==";
              main.STTRequest.model_id := Some "scribe_v2";
              main.STTRequest.language := None |} 10%float 11%float
           {| main.STTResponse.text := "hello world";
              main.STTResponse.confidence := 0.95;
              main.STTResponse.language := "en";
              main.STTResponse.processing_time := 1;
              main.STTResponse.model_id := "scribe_v2" |}).
  reflexivity.
Defined.

Lemma stt_file_agrees_with_stt_witness :
  main.speech_to_text_file (scenario.online scenario.no_env)
    (Some scenario.connected) [x52; x49; x46; x46] "whisper-1" None
    10%float 11%float
  = main.speech_to_text (scenario.online scenario.no_env)
      (Some scenario.connected)
      {| main.STTRequest.audio_data := Base64.b64encode [x52; x49; x46; x46];
         main.STTRequest.model_id := Some "whisper-1";
         main.STTRequest.language := None |}
      10%float 11%float.
Proof.
  apply (stt_file_agrees_with_stt (scenario.online scenario.no_env)
           (Some scenario.connected) [x52; x49; x46; x46] "whisper-1" None
           10%float 11%float).
  discriminate.
Defined.

Lemma stt_ignores_foreign_characters_witness :
  main.speech_to_text (scenario.online scenario.no_env)
    (Some scenario.connected)
    {| main.STTRequest.audio_data := "UklG" +:+ String "010"%char "Rg==";
       main.STTRequest.model_id := None;
       main.STTRequest.language := None |} 10%float 11%float
  = main.speech_to_text (scenario.online scenario.no_env)
      (Some scenario.connected)
      {| main.STTRequest.audio_data := "UklG" +:+ "Rg==";
         main.STTRequest.model_id := None;
         main.STTRequest.language := None |} 10%float 11%float.
Proof.
  apply (stt_ignores_foreign_characters (scenario.online scenario.no_env)
           (Some scenario.connected) "010"%char "UklG" "Rg==" None None
           10%float 11%float).
  - reflexivity.
  - discriminate.
  - reflexivity.
Defined.

Lemma stt_audio_is_bounded_witness :
  Base64.b64decode "UklGRg==" = Ok [x52; x49; x46; x46]
  /\ 4 * length [x52; x49; x46; x46] <= 3 * String.length "UklGRg==".
Proof.
  apply (stt_audio_is_bounded (scenario.online scenario.no_env)
           scenario.connected
           {| main.STTRequest.audio_data := "UklGRg==";
              main.STTRequest.model_id := None;
              main.STTRequest.language := None |} 10%float 11%float
           [x52; x49; x46; x46] (Some "scribe_v1")).
  left. reflexivity.
Defined.

End SpeechToTextFacadeWitnesses.

(** * The size of a text-to-speech response *)

Section TextToSpeechSize.

Import elevenlabs_client.

(** X18. In every successful [/tts] response [audio_data] has four
    characters for every three bytes of audio, rounded up:
    [len(audio_data) = 4 * ((size + 2) // 3)]. *)
Theorem tts_audio_text_length (w : World)
    (elevenlabs_client : option ElevenLabsClient) (request : main.TTSRequest.t)
    (t_before t_after : float) (stamp : string) (body : main.TTSResponse.t) :
  snd (main.text_to_speech w elevenlabs_client request t_before t_after stamp)
    = main.Response body ->
  Z.of_nat (String.length (main.TTSResponse.audio_data body))
  = (4 * ((main.TTSResponse.size body + 2) / 3))%Z.
Proof.
  unfold main.text_to_speech.
  destruct elevenlabs_client as [c|]; [|discriminate].
  rewrite guard_500_result, outcome_bind.
  destruct (outcome (text_to_speech _ _ _ _ _ _)) as [payload|e];
    [|discriminate].
  rewrite outcome_bind, outcome_lift.
  destruct (main.TTSRequest.model_id request) as [m|]; [|discriminate].
  cbn. intros [= <-]. cbn. unfold Base64.b64encode.
  rewrite (length_b2a_base64 (S (length payload))) by lia.
  rewrite Nat2Z.inj_mul, Nat2Z.inj_div, Nat2Z.inj_add. reflexivity.
Qed.

Lemma tts_audio_text_length_witness :
  Z.of_nat (String.length "SUQzBAA=") = (4 * ((5 + 2) / 3))%Z.
Proof.
  apply (tts_audio_text_length (scenario.online scenario.no_env)
           (Some scenario.connected)
           {| main.TTSRequest.text := "Hello";
              main.TTSRequest.voice_id := None;
              main.TTSRequest.model_id := Some "eleven_monolingual_v1";
              main.TTSRequest.voice_settings := None |}
           10%float 11%float "2025-01-01 00:00:00"
           {| main.TTSResponse.audio_data := "SUQzBAA=";
              main.TTSResponse.voice_id := "21m00Tcm4TlvDq8ikWAM";
              main.TTSResponse.model_id := "eleven_monolingual_v1";
              main.TTSResponse.duration := 1%float;
              main.TTSResponse.size := 5;
              main.TTSResponse.generated_at := "2025-01-01 00:00:00" |}).
  reflexivity.
Defined.

End TextToSpeechSize.

(** * The voice list *)

Section Voices.

Import elevenlabs_client.

Lemma get_voices_connected (w : World) (self : ElevenLabsClient) :
  is_connected self = true ->
  exists c,
    client self = Some c
    /\ get_voices w self = ([VoicesGetAll], sdk_voices_get_all w c).
Proof.
  intros Hconn. destruct (is_connected_client _ Hconn) as [c Hc].
  exists c. split; [exact Hc|].
  unfold get_voices. rewrite Hconn, Hc. cbn.
  now destruct (sdk_voices_get_all w c).
Qed.

Lemma voice_info_outcome (w : World) (v : sdk_voice) (info : main.VoiceInfo.t) :
  outcome (main.voice_info w v) = Ok info <-> voices.described w v info.
Proof.
  unfold main.voice_info, voices.described.
  rewrite outcome_bind, outcome_lift.
  destruct (validate_str w (sv_voice_id v)) as [i|e].
  2: { split; [discriminate|]. intros (H & _). discriminate H. }
  rewrite outcome_bind, outcome_lift.
  destruct (validate_str w (sv_name v)) as [n|e].
  2: { split; [discriminate|]. intros (_ & H & _). discriminate H. }
  rewrite outcome_bind, outcome_lift.
  destruct (validate_str w (sv_category v)) as [c|e].
  2: { split; [discriminate|]. intros (_ & _ & H & _). discriminate H. }
  rewrite outcome_bind, outcome_lift.
  destruct (main.optional_str w (sv_description v)) as [d|e].
  2: { split; [discriminate|]. intros (_ & _ & _ & H & _). discriminate H. }
  rewrite outcome_bind, outcome_lift.
  destruct (main.optional_str w (sv_preview_url v)) as [p|e].
  2: { split; [discriminate|]. intros (_ & _ & _ & _ & H). discriminate H. }
  cbn. split.
  - intros [= <-]. cbn. auto.
  - destruct info. cbn. intros ([= ->] & [= ->] & [= ->] & [= ->] & [= ->]).
    reflexivity.
Qed.

Lemma voice_info_log (w : World) (v : sdk_voice) :
  log_of (main.voice_info w v) = [].
Proof.
  unfold main.voice_info.
  destruct (validate_str w (sv_voice_id v)); [|reflexivity]. cbn.
  destruct (validate_str w (sv_name v)); [|reflexivity]. cbn.
  destruct (validate_str w (sv_category v)); [|reflexivity]. cbn.
  destruct (main.optional_str w (sv_description v)); [|reflexivity]. cbn.
  destruct (main.optional_str w (sv_preview_url v)); reflexivity.
Qed.

Lemma mapM_cons {A B : Type} (f : A -> M B) (x : A) (l : list A) :
  mapM f (x :: l) = f x ≫= fun y => mapM f l ≫= fun k => mret (y :: k).
Proof. reflexivity. Qed.

Lemma mapM_voice_info_outcome (w : World) (vs : list sdk_voice) :
  forall body : list main.VoiceInfo.t,
    outcome (mapM (main.voice_info w) vs) = Ok body
    <-> Forall2 (voices.described w) vs body.
Proof.
  induction vs as [|v vs IH]; intros body.
  - cbn. split.
    + intros [= <-]. constructor.
    + intros H. inversion H. reflexivity.
  - rewrite mapM_cons, outcome_bind. split.
    + destruct (outcome (main.voice_info w v)) as [info|e] eqn:Hv;
        [|discriminate].
      rewrite outcome_bind.
      destruct (outcome (mapM (main.voice_info w) vs)) as [k|e] eqn:Hk;
        [|discriminate].
      cbn. intros [= <-]. constructor.
      * now apply voice_info_outcome.
      * now apply IH.
    + intros H. inversion H as [|? info ? k Hv Hk]; subst.
      apply voice_info_outcome in Hv. apply IH in Hk.
      now rewrite Hv, outcome_bind, Hk.
Qed.

Lemma mapM_voice_info_log (w : World) (vs : list sdk_voice) :
  log_of (mapM (main.voice_info w) vs) = [].
Proof.
  induction vs as [|v vs IH]; [reflexivity|].
  rewrite mapM_cons, log_bind, voice_info_log. cbn [app].
  destruct (outcome (main.voice_info w v)); [|reflexivity].
  rewrite log_bind, IH. cbn [app].
  now destruct (outcome (mapM (main.voice_info w) vs)).
Qed.

(** X19. [/voices] answers 200 exactly when the adapter is connected, the
    provider returns its catalog, and every entry passes validation; the body
    then has one entry per provider voice, in the provider's order.  A single
    invalid entry fails the whole list. *)
Theorem voices_ok_iff_all_valid (w : World) (self : ElevenLabsClient)
    (body : list main.VoiceInfo.t) :
  snd (main.get_voices w (Some self)) = main.Response body
  <-> is_connected self = true
      /\ exists c vs,
           client self = Some c
           /\ sdk_voices_get_all w c = Ok vs
           /\ Forall2 (voices.described w) vs body.
Proof.
  unfold main.get_voices. rewrite guard_500_result, outcome_bind.
  destruct (is_connected self) eqn:Hconn.
  - destruct (get_voices_connected w self Hconn) as (c & Hc & ->).
    cbn [outcome snd]. split.
    + destruct (sdk_voices_get_all w c) as [vs|e] eqn:Hvs; [|discriminate].
      destruct (outcome (mapM (main.voice_info w) vs)) as [b|e] eqn:Hb;
        [|discriminate].
      intros [= <-]. apply mapM_voice_info_outcome in Hb. eauto 10.
    + intros (_ & c' & vs & Hc' & Hvs & Hall).
      assert (c' = c) as -> by congruence. rewrite Hvs.
      apply mapM_voice_info_outcome in Hall. now rewrite Hall.
  - unfold get_voices. rewrite Hconn. cbn. split; [discriminate|].
    intros [[=] _].
Qed.

(** X20. A connected adapter serves [/voices] with exactly one provider
    call, and the provider's exception is answered with status 500 carrying
    its message. *)
Theorem voices_single_call (w : World) (self : ElevenLabsClient) :
  is_connected self = true ->
  fst (main.get_voices w (Some self)) = [VoicesGetAll]
  /\ forall c e,
       client self = Some c ->
       sdk_voices_get_all w c = Raise e ->
       snd (main.get_voices w (Some self))
         = main.HTTPException 500 (exn_msg e).
Proof.
  intros Hconn. destruct (get_voices_connected w self Hconn) as (c & Hc & Hg).
  unfold main.get_voices, main.guard_500. rewrite Hg. split.
  - destruct (sdk_voices_get_all w c) as [vs|e]; cbn; [|reflexivity].
    pose proof (mapM_voice_info_log w vs) as Hlog.
    destruct (mapM (main.voice_info w) vs) as [l [b|e]]; cbn in *; now subst.
  - intros c' e Hc' He. assert (c' = c) as -> by congruence.
    now rewrite He.
Qed.

End Voices.

Section VoicesWitnesses.

Import elevenlabs_client.

Lemma voices_single_call_witness :
  fst (main.get_voices scenario.with_voices (Some scenario.connected))
    = [VoicesGetAll].
Proof.
  apply (voices_single_call scenario.with_voices scenario.connected eq_refl).
Defined.

End VoicesWitnesses.

(** * The connectivity flag over the life of the process *)

Section Lifecycle.

Import elevenlabs_client.

Lemma lifespan_connected_iff (w : World) :
  match fst (main.lifespan w None) with
  | Some c => is_connected c
  | None => false
  end = true
  <-> snd (main.lifespan w None) = Ok ().
Proof.
  unfold main.lifespan.
  destruct (negb _ || _); cbn -[initialize]; [split; discriminate|].
  destruct (initialize w _) as [c r] eqn:Hinit. cbn.
  pose proof (initialize_outcome w
                (__init__ (default "" (getenv w "ELEVENLABS_API_KEY")))) as H.
  rewrite Hinit in H. exact (proj1 H).
Qed.

(** X21. After start-up (from the initial, empty global) [/health] reports
    [elevenlabs_connected] as true exactly when start-up completed; after
    shut-down it reports false, and both times it answers 200. *)
Theorem health_follows_lifecycle (w : World)
    (elevenlabs_client : option ElevenLabsClient) (start_time now : float) :
  (exists body,
     main.health_check (fst (main.lifespan w None)) start_time now
       = main.Response body
     /\ (main.HealthResponse.elevenlabs_connected body = true
         <-> snd (main.lifespan w None) = Ok ()))
  /\ (exists body,
        main.health_check (main.lifespan_shutdown elevenlabs_client)
          start_time now = main.Response body
        /\ main.HealthResponse.elevenlabs_connected body = false).
Proof.
  split.
  - eexists. split; [reflexivity|]. cbn. apply lifespan_connected_iff.
  - eexists. split; [reflexivity|]. cbn.
    now destruct elevenlabs_client.
Qed.

End Lifecycle.

Section VoicesOkWitness.

Import elevenlabs_client.

Lemma voices_ok_iff_all_valid_witness :
  snd (main.get_voices scenario.with_voices (Some scenario.connected))
  = main.Response
      [ {| main.VoiceInfo.voice_id := "21m00Tcm4TlvDq8ikWAM";
           main.VoiceInfo.name := "Rachel";
           main.VoiceInfo.category := "premade";
           main.VoiceInfo.description := None;
           main.VoiceInfo.preview_url := Some "https://example.org/rachel.mp3" |};
        {| main.VoiceInfo.voice_id := "AZnzlk1XvdvUeBnXmlld";
           main.VoiceInfo.name := "Domi";
           main.VoiceInfo.category := "premade";
           main.VoiceInfo.description := Some "strong";
           main.VoiceInfo.preview_url := None |} ].
Proof.
  apply (proj2 (voices_ok_iff_all_valid scenario.with_voices
                  scenario.connected _)).
  split; [reflexivity|].
  eexists _, _. split; [reflexivity|]. split; [reflexivity|].
  repeat constructor.
Defined.

End VoicesOkWitness.

(** * A 200 answer without a transcript *)

Section RestDefaults.

Import elevenlabs_client.

(** X22. When the SDK path yields nothing and the first upload is answered
    with status 200 and a JSON object that has no ["text"] key, the adapter
    returns an empty transcript, with the object's ["confidence"] or 0.95
    when that is missing too; the second upload is not sent. *)
Theorem rest_answer_without_text (w : World) (self : ElevenLabsClient)
    (audio_data : bytes) (model_id language : option string)
    (temp_path : string) (response : httpx.Response)
    (kvs : list (string * pyval)) :
  is_connected self = true ->
  fs_write_temp w audio_data = Ok temp_path ->
  fs_open_rest w temp_path = Ok () ->
  fs_unlink w temp_path = Ok () ->
  stt.sdk_path_fails w self audio_data model_id ->
  http_post w (first_request self audio_data) = Ok response ->
  httpx.status_code response = 200%Z ->
  httpx.json response = Ok (PyDict kvs) ->
  assoc "text" kvs = None ->
  outcome (speech_to_text w self audio_data model_id language)
    = Ok {| text := PyStr "";
            confidence := default (PyFloat 0.95) (assoc "confidence" kvs);
            language := str_or language "en" |}
  /\ ~ In (Post (second_request self audio_data model_id language))
         (log_of (speech_to_text w self audio_data model_id language)).
Proof.
  intros Hconn Hp Hopen Hunlink Hsdk Hpost Hstatus Hjson Htext.
  assert (direct_api w self temp_path audio_data model_id language
          = ([Post (first_request self audio_data)],
             Ok {| text := PyStr "";
                   confidence := default (PyFloat 0.95) (assoc "confidence" kvs);
                   language := str_or language "en" |})) as Hdirect.
  { unfold direct_api, from_response. rewrite Hopen. cbn.
    rewrite Hpost, Hstatus, Hjson. cbn. now rewrite Htext. }
  split.
  - unfold speech_to_text. rewrite Hconn. cbn [negb].
    rewrite outcome_try_except, outcome_bind.
    unfold _transcribe_audio at 1.
    rewrite outcome_bind, outcome_lift, Hp, outcome_try_finally, outcome_lift,
      Hunlink, outcome_bind, (sdk_attempt_fails _ _ _ _ _ _ Hsdk), Hdirect.
    reflexivity.
  - rewrite speech_to_text_log_eq, Hconn, transcribe_log_eq, Hp.
    rewrite (sdk_attempt_fails _ _ _ _ _ _ Hsdk), Hdirect. cbn [log_of fst].
    intros [H|[H|[]]]%in_app_or.
    + now apply sdk_attempt_log in H.
    + discriminate H.
Qed.

End RestDefaults.

Section RestDefaultsWitness.

Import elevenlabs_client.

Lemma rest_answer_without_text_witness :
  outcome (speech_to_text scenario.empty_answer scenario.connected
             [x52; x49; x46; x46] (Some "whisper-1") None)
    = Ok {| text := PyStr ""; confidence := PyFloat 0.95; language := "en" |}
  /\ ~ In (Post (second_request scenario.connected [x52; x49; x46; x46]
                   (Some "whisper-1") None))
         (log_of (speech_to_text scenario.empty_answer scenario.connected
                    [x52; x49; x46; x46] (Some "whisper-1") None)).
Proof.
  apply (rest_answer_without_text scenario.empty_answer scenario.connected
           [x52; x49; x46; x46] (Some "whisper-1") None "/tmp/tmpa1b2c3.wav"
           {| httpx.status_code := 200;
              httpx.json := Ok (PyDict [("language_code", PyStr "en")]);
              httpx.text := "" |}
           [("language_code", PyStr "en")]).
  - reflexivity.
  - reflexivity.
  - reflexivity.
  - reflexivity.
  - intros c _ Hhas. discriminate Hhas.
  - reflexivity.
  - reflexivity.
  - reflexivity.
  - reflexivity.
Defined.

End RestDefaultsWitness.
